(** * zod-prisma-types: the enriched DMMF graph

    A shallow embedding of two classes of the generator,
    [ExtendedDMMFModel] (classes/extendedDMMFModel.ts) and
    [ExtendedDMMFSchemaField] (classes/extendedDMMFSchemaField.ts),
    together with the JavaScript primitives they rest on: string search and
    replacement, regular-expression matching with backtracking, insertion
    ordered sets and exceptions. *)

From stdpp Require Import base list strings gmap.
From Stdlib Require Import Ascii.

Set Warnings "-clear-no-such-hyp".

#[local] Open Scope string_scope.
#[local] Open Scope list_scope.
#[local] Open Scope nat_scope.

(** String concatenation unfolds on a string that starts with a character. *)
#[local] Arguments String.append !_ _ / : simpl nomatch.

(** ** JavaScript strings

    A JavaScript string is a sequence of code units; it is modelled as a
    [string] of 8-bit characters, which covers every character the two
    classes test for. *)
Module JS.

(** The double quote, which a literal of this file cannot hold. *)
Definition dq : string := String (ascii_of_nat 34) EmptyString.

(** [s.slice(n)] for [0 <= n]. *)
Fixpoint slice (n : nat) (s : string) : string :=
  match n, s with
  | S n', String _ s' => slice n' s'
  | _, _ => s
  end.

(** [s.startsWith(t)]. *)
Fixpoint startsWith (s t : string) {struct t} : bool :=
  match t, s with
  | EmptyString, _ => true
  | String a t', String b s' => bool_decide (a = b) && startsWith s' t'
  | String _ _, EmptyString => false
  end.

(** [s.includes(t)]: [t] occurs in [s] at some index. *)
Fixpoint includes (s t : string) : bool :=
  if startsWith s t then true
  else match s with
       | EmptyString => false
       | String _ s' => includes s' t
       end.

(** [s.replace(pat, rep)] with a string pattern: the first occurrence of
    [pat] is replaced, and [s] is returned as it is when there is none.
    (The [$] patterns of the replacement do not arise: the classes only
    replace by the empty string.) *)
Fixpoint replace (s pat rep : string) : string :=
  if startsWith s pat then rep +:+ slice (String.length pat) s
  else match s with
       | EmptyString => EmptyString
       | String c s' => String c (replace s' pat rep)
       end.

(** [s.split(sep)] for a separator that is not empty.  [skip] counts the
    characters of a separator just recognised that are still to be
    dropped, [cur] is the piece being read. *)
Fixpoint split_from (sep : string) (skip : nat) (cur s : string) : list string :=
  match s with
  | EmptyString => [cur]
  | String c s' =>
      match skip with
      | S k => split_from sep k cur s'
      | O =>
          if startsWith s sep
          then cur :: split_from sep (pred (String.length sep)) EmptyString s'
          else split_from sep O (cur +:+ String c EmptyString) s'
      end
  end.

Definition split (s sep : string) : list string := split_from sep O EmptyString s.

(** [s.replace(/[...]/g, rep)] for a class of single characters. *)
Fixpoint replaceAllIn (cls : ascii → bool) (rep s : string) : string :=
  match s with
  | EmptyString => EmptyString
  | String c s' =>
      (if cls c then rep else String c EmptyString) +:+ replaceAllIn cls rep s'
  end.

(** [list.join(sep)]. *)
Fixpoint join (sep : string) (l : list string) : string :=
  match l with
  | [] => EmptyString
  | [x] => x
  | x :: l' => x +:+ sep +:+ join sep l'
  end.

(** Truthiness of a string that may be [undefined]. *)
Definition truthy (o : option string) : bool :=
  match o with
  | Some (String _ _) => true
  | _ => false
  end.

(** What a template literal prints for a value that may be [undefined]. *)
Definition show (o : option string) : string := default "undefined" o.

(** *** Insertion-ordered sets: [new Set(iterable)]

    A [Set] keeps its members in the order of their first insertion;
    [add] leaves the set alone when the value is a member already. *)
Definition Set_ := list string.

Definition has (s : Set_) (x : string) : bool := bool_decide (x ∈ s).

Definition add (s : Set_) (x : string) : Set_ := if has s x then s else s ++ [x].

Definition newSet (l : list string) : Set_ := foldl add [] l.

(** *** Exceptions *)
Inductive exn : Type :=
| Error (message : string)
| TypeError.

Inductive result (A : Type) : Type :=
| Ok (a : A)
| Throw (e : exn).
#[global] Arguments Ok {A} a.
#[global] Arguments Throw {A} e.

Definition bind {A B} (m : result A) (k : A → result B) : result B :=
  match m with
  | Ok a => k a
  | Throw e => Throw e
  end.

(** [l.forEach(f)] over a body that may throw, threading the state [st]. *)
Fixpoint forEach {A St} (f : St → A → result St) (st : St) (l : list A) : result St :=
  match l with
  | [] => Ok st
  | x :: l' => bind (f st x) (λ st', forEach f st' l')
  end.

End JS.

#[global] Instance result_bind : MBind JS.result := λ A B k m, JS.bind m k.

(** ** Regular expressions

    The fragment of the regular expressions the classes use: literals,
    character classes under a greedy [+], sequence, alternation and capture
    groups.  Matching is the backtracking search of the language: [run]
    lists the ways an expression matches at the start of a string, in the
    order in which the search tries them. *)
Module RegExp.

Inductive regex : Type :=
| Lit (s : string)
| Plus (cls : ascii → bool)
| Seq (r1 r2 : regex)
| Alt (r1 r2 : regex)
| Group (name : option string) (r : regex).

(** One way to match: the text consumed, the text left, and the named
    groups bound on the way. *)
Record way : Type := Way {
  consumed : string;
  rest : string;
  groups : list (string * string)
}.

(** [cls+], the longest run first. *)
Fixpoint greedy (cls : ascii → bool) (s : string) : list way :=
  match s with
  | EmptyString => []
  | String c s' =>
      if cls c
      then map (λ w, Way (String c (consumed w)) (rest w) []) (greedy cls s')
             ++ [Way (String c EmptyString) s' []]
      else []
  end.

Fixpoint run (r : regex) (s : string) : list way :=
  match r with
  | Lit t => if JS.startsWith s t then [Way t (JS.slice (String.length t) s) []] else []
  | Plus cls => greedy cls s
  | Seq r1 r2 =>
      w1 ← run r1 s;
      w2 ← run r2 (rest w1);
      [Way (consumed w1 +:+ consumed w2) (rest w2) (groups w1 ++ groups w2)]
  | Alt r1 r2 => run r1 s ++ run r2 s
  | Group name r1 =>
      (λ w, Way (consumed w) (rest w)
              (match name with
               | Some n => (n, consumed w) :: groups w
               | None => groups w
               end)) <$> run r1 s
  end.

(** The array [s.match(r)] returns for an expression without the [g]
    flag: the index of the leftmost match, the matched text and the named
    groups. *)
Record RegExpMatchArray : Type := {
  index : nat;
  matched : string;
  named : list (string * string)
}.

Fixpoint exec_from (r : regex) (i : nat) (s : string) : option RegExpMatchArray :=
  match run r s with
  | w :: _ => Some {| index := i; matched := consumed w; named := groups w |}
  | [] =>
      match s with
      | EmptyString => None
      | String _ s' => exec_from r (S i) s'
      end
  end.

(** [s.match(r)]. *)
Definition match_ (s : string) (r : regex) : option RegExpMatchArray := exec_from r 0 s.

(** [r.test(s)]. *)
Definition test (r : regex) (s : string) : bool :=
  match match_ s r with Some _ => true | None => false end.

(** [m.groups?.[name]]. *)
Fixpoint lookup_group (name : string) (g : list (string * string)) : option string :=
  match g with
  | [] => None
  | (n, v) :: g' => if bool_decide (n = name) then Some v else lookup_group name g'
  end.

Definition group (m : RegExpMatchArray) (name : string) : option string :=
  lookup_group name (named m).

(** Character classes. *)
Definition between (lo hi : nat) (c : ascii) : bool :=
  let n := nat_of_ascii c in (lo <=? n) && (n <=? hi).

(** [\w] *)
Definition word (c : ascii) : bool :=
  between 97 122 c || between 65 90 c || between 48 57 c || bool_decide (c = "_"%char).

Definition oneOf (chars : string) (c : ascii) : bool :=
  bool_decide (c ∈ String.list_ascii_of_string chars).

(** Alternation of literals, [/a|b|c/]. *)
Fixpoint anyOf (first : string) (others : list string) : regex :=
  match others with
  | [] => Lit first
  | o :: others' => Alt (Lit first) (anyOf o others')
  end.

End RegExp.

(** ** The raw schema description

    The types of [@prisma/generator-helper] the two classes read, with the
    properties they read. *)
Module DMMF.

Record Field : Type := {
  Field_name : string;
  Field_kind : string;
  Field_type : string;
  Field_isRequired : bool;
  Field_isList : bool;
  Field_documentation : option string
}.

Record UniqueIndex : Type := {
  UniqueIndex_name : option string;
  UniqueIndex_fields : list string
}.

Record Model : Type := {
  name : string;
  dbName : option string;
  fields : list Field;
  uniqueFields : list (list string);
  uniqueIndexes : list UniqueIndex;
  documentation : option string;
  primaryKey : option UniqueIndex
}.

Record TypeRef : Type := {
  type : string;
  isList : bool;
  location : string
}.

Record Deprecation : Type := {
  sinceVersion : string;
  reason : string;
  plannedRemovalVersion : option string
}.

Record SchemaArg : Type := {
  SchemaArg_name : string;
  SchemaArg_isNullable : bool;
  SchemaArg_isRequired : bool;
  SchemaArg_inputTypes : list TypeRef
}.

Record SchemaField : Type := {
  SchemaField_name : string;
  SchemaField_isNullable : option bool;
  SchemaField_outputType : TypeRef;
  SchemaField_args : list SchemaArg;
  SchemaField_deprecation : option Deprecation;
  SchemaField_documentation : option string
}.

End DMMF.

(** ** Collaborators of the two classes

    [GeneratorConfig], [FormattedNames], [ExtendedDMMFField],
    [ExtendedDMMFSchemaArg] and [ExtendedDMMFDatamodel] are classes of the
    generator that the two files import; each is a record of the properties
    and method results the two classes read.  Their constructors are
    parameters of the sections below. *)
Record GeneratorConfig : Type := {
  inputTypePath : string;
  prismaClientPath : string;
  createOptionalDefaultValuesTypes : bool
}.

(** [formattedNames.pascalCase] of a [FormattedNames]. *)
Record FormattedNames : Type := {
  pascalCase : string
}.

Module ExtendedDMMFField.

Record t : Type := {
  name : string;
  kind : string;
  type : string;
  isRequired : bool;
  isJsonType : bool;
  isDecimalType : bool;
  isOmitField : bool;
  isOptionalDefaultField : bool
}.

End ExtendedDMMFField.

Module ExtendedDMMFSchemaArg.

Record t : Type := {
  name : string;
  isRequired : bool;
  hasMultipleTypes : bool;
  inputTypes : list DMMF.TypeRef;
  rewriteArgWithNewType : bool
}.

End ExtendedDMMFSchemaArg.

(** ** [ExtendedDMMFModel] (src/unnamed/part_000) *)
Module ExtendedDMMFModel.

Record t : Type := {
  generatorConfig : GeneratorConfig;
  name : string;
  dbName : option string;
  fields : list ExtendedDMMFField.t;
  uniqueFields : list (list string);
  uniqueIndexes : list DMMF.UniqueIndex;
  documentation : option string;
  primaryKey : option DMMF.UniqueIndex;
  scalarFields : list ExtendedDMMFField.t;
  relationFields : list ExtendedDMMFField.t;
  enumFields : list ExtendedDMMFField.t;
  hasRelationFields : bool;
  hasOmitFields : bool;
  imports : JS.Set_;
  errorLocation : string;
  clearedDocumentation : option string
}.

(** What [_extractZodDirectives] returns when it finds a directive. *)
Record ZodDirectives : Type := {
  statements : list string;
  directives_clearedDocumentation : string
}.

(** What [_getDocumentationContent] returns. *)
Record DocumentationContent : Type := {
  content_imports : JS.Set_;
  content_documentation : option string
}.

(** The character class of the statement pattern: word characters, space,
    both quotes, braces, slash, comma, semicolon, dot and star. *)
Definition statementChar (c : ascii) : bool :=
  RegExp.word c || RegExp.oneOf (" '{}/,;.*" +:+ JS.dq) c.

(** The statement pattern of [_extractZodDirectives]: a double quote, the
    group [statement] of one or more characters of the class, a double
    quote. *)
Definition STATEMENT_REGEX : RegExp.regex :=
  RegExp.Seq (RegExp.Lit JS.dq)
    (RegExp.Seq (RegExp.Group (Some "statement") (RegExp.Plus statementChar))
       (RegExp.Lit JS.dq)).

(** The class of the two quotes, which [replace] with the [g] flag turns
    into single quotes. *)
Definition quoteChar (c : ascii) : bool := RegExp.oneOf ("'" +:+ JS.dq) c.

Definition push (l : list string) (x : string) : list string := l ++ [x].

Section Methods.

(** [IMPORT_STATEMENT_REGEX] is a constant of [../constants]; the class
    reads its groups [type] and [imports]. *)
Variable IMPORT_STATEMENT_REGEX : RegExp.regex.

(** The constructor of [ExtendedDMMFField]. *)
Variable newExtendedDMMFField : GeneratorConfig → DMMF.Field → string → ExtendedDMMFField.t.

Definition _setErrorLocation (name : string) : string :=
  "[Error Location]: Model: '" +:+ name +:+ "'.".

Definition _getExtendedFields (generatorConfig : GeneratorConfig) (name : string)
    (model : DMMF.Model) : list ExtendedDMMFField.t :=
  map (λ field, newExtendedDMMFField generatorConfig field name) (DMMF.fields model).

Definition _setScalarFields (fields : list ExtendedDMMFField.t) : list ExtendedDMMFField.t :=
  filter (λ field, ExtendedDMMFField.kind field = "scalar") fields.

Definition _setRelationFields (fields : list ExtendedDMMFField.t) : list ExtendedDMMFField.t :=
  filter (λ field, ExtendedDMMFField.kind field = "object") fields.

Definition _setEnumfields (fields : list ExtendedDMMFField.t) : list ExtendedDMMFField.t :=
  filter (λ field, ExtendedDMMFField.kind field = "enum") fields.

Definition _setHasRelationFields (relationFields : list ExtendedDMMFField.t) : bool :=
  0 <? length relationFields.

Definition _setHasOmitFields (fields : list ExtendedDMMFField.t) : bool :=
  existsb ExtendedDMMFField.isOmitField fields.

(** One element of the imports list: the statement group of the first
    match, its quotes normalised; [None] stands for [undefined]. *)
Definition extractStatement (statement : string) : option string :=
  m ← RegExp.match_ statement STATEMENT_REGEX;
  s ← RegExp.group m "statement";
  Some (JS.replaceAllIn quoteChar "'" s).

Definition _extractZodDirectives (documentation : option string) (errorLocation : string)
    : JS.result (option ZodDirectives) :=
  match documentation with
  | None | Some EmptyString => JS.Ok None
  | Some documentation =>
      match RegExp.match_ documentation IMPORT_STATEMENT_REGEX with
      | None => JS.Ok None
      | Some importStatements =>
          let type := RegExp.group importStatements "type" in
          if bool_decide (type ≠ Some "import")
          then JS.Throw (JS.Error
                 ("[@zod generator error]: '" +:+ JS.show type
                    +:+ "' is not a valid validator key. " +:+ errorLocation))
          else
            match (λ s, JS.split s ", ") <$> RegExp.group importStatements "imports" with
            | None => JS.Ok None
            | Some importsList =>
                JS.Ok (Some {|
                  statements :=
                    omap (λ statement,
                            let s := extractStatement statement in
                            if JS.truthy s then s else None) importsList;
                  directives_clearedDocumentation :=
                    JS.replace documentation (RegExp.matched importStatements) ""
                |})
            end
      end
  end.

Definition _getAutomaticImports (generatorConfig : GeneratorConfig)
    (fields enumFields : list ExtendedDMMFField.t) : list string :=
  let statements := [] in
  let statements :=
    if existsb (λ field, ExtendedDMMFField.isJsonType field
                           && negb (ExtendedDMMFField.isRequired field)) fields
    then push statements ("import { NullableJsonValue } from " +:+ JS.dq +:+ "../helpers")
    else statements in
  let statements :=
    if existsb (λ field, ExtendedDMMFField.isJsonType field
                           && ExtendedDMMFField.isRequired field) fields
    then push statements ("import { InputJsonValue } from " +:+ JS.dq +:+ "../helpers")
    else statements in
  let statements :=
    if existsb ExtendedDMMFField.isDecimalType fields
    then push statements
           ("import * as PrismaClient from '" +:+ prismaClientPath generatorConfig +:+ "'")
    else statements in
  foldl (λ statements field,
           push statements
             ("import { " +:+ ExtendedDMMFField.type field +:+ "Schema } from '../enums/"
                +:+ ExtendedDMMFField.type field +:+ "Schema'"))
    statements enumFields.

Definition _getDocumentationContent (generatorConfig : GeneratorConfig)
    (documentation : option string) (errorLocation : string)
    (fields enumFields : list ExtendedDMMFField.t) : JS.result DocumentationContent :=
  zodDirectives ← _extractZodDirectives documentation errorLocation;
  let automaticImports := _getAutomaticImports generatorConfig fields enumFields in
  match zodDirectives with
  | None =>
      JS.Ok {| content_imports := JS.newSet automaticImports;
               content_documentation := None |}
  | Some zodDirectives =>
      JS.Ok {| content_imports := JS.newSet (statements zodDirectives ++ automaticImports);
               content_documentation := Some (directives_clearedDocumentation zodDirectives) |}
  end.

(** The constructor. *)
Definition new (generatorConfig : GeneratorConfig) (model : DMMF.Model) : JS.result t :=
  let name := DMMF.name model in
  let fields := _getExtendedFields generatorConfig name model in
  let documentation := DMMF.documentation model in
  let scalarFields := _setScalarFields fields in
  let relationFields := _setRelationFields fields in
  let enumFields := _setEnumfields fields in
  let hasRelationFields := _setHasRelationFields relationFields in
  let hasOmitFields := _setHasOmitFields fields in
  let errorLocation := _setErrorLocation name in
  docsContent ← _getDocumentationContent generatorConfig documentation errorLocation
                   fields enumFields;
  JS.Ok {|
    generatorConfig := generatorConfig;
    name := name;
    dbName := DMMF.dbName model;
    fields := fields;
    uniqueFields := DMMF.uniqueFields model;
    uniqueIndexes := DMMF.uniqueIndexes model;
    documentation := documentation;
    primaryKey := DMMF.primaryKey model;
    scalarFields := scalarFields;
    relationFields := relationFields;
    enumFields := enumFields;
    hasRelationFields := hasRelationFields;
    hasOmitFields := hasOmitFields;
    imports := content_imports docsContent;
    errorLocation := errorLocation;
    clearedDocumentation := content_documentation docsContent
  |}.

Definition writeOptionalDefaultValuesTypes (this : t) : bool :=
  existsb ExtendedDMMFField.isOptionalDefaultField (fields this)
  && createOptionalDefaultValuesTypes (generatorConfig this).

End Methods.

End ExtendedDMMFModel.

(** [ExtendedDMMFDatamodel]: the root graph, of which the actions read the
    models. *)
Record ExtendedDMMFDatamodel : Type := {
  models : list ExtendedDMMFModel.t
}.

(** ** [ExtendedDMMFSchemaField]
    (src/packages/generator/src/classes/extendedDMMFSchemaField.ts) *)
Module ExtendedDMMFSchemaField.

Record t : Type := {
  generatorConfig : GeneratorConfig;
  name : string;
  isNullable : option bool;
  outputType : DMMF.TypeRef;
  args : list ExtendedDMMFSchemaArg.t;
  deprecation : option DMMF.Deprecation;
  documentation : option string;
  prismaAction : option string;
  argName : option string;
  modelType : string;
  linkedModel : option ExtendedDMMFModel.t;
  hasOmitFields : bool;
  argTypeImports : JS.Set_
}.

(** [/create|upsert|update|delete/] *)
Definition WRITE_REGEX : RegExp.regex :=
  RegExp.anyOf "create" ["upsert"; "update"; "delete"].

(** [/create|update|upsert|delete|data/] *)
Definition WRITE_DATA_REGEX : RegExp.regex :=
  RegExp.anyOf "create" ["update"; "upsert"; "delete"; "data"].

(** [/createMany|updateMany|deleteMany/] *)
Definition MANY_REGEX : RegExp.regex :=
  RegExp.anyOf "createMany" ["updateMany"; "deleteMany"].

Definition push (l : list string) (x : string) : list string := l ++ [x].

Section Methods.

(** [PRISMA_ACTION_ARRAY] and [PRISMA_ACTION_ARG_MAP] are constants of
    [../constants/objectMaps]: the verbs in the order in which they are
    tried, and the object that maps a verb to its [FormattedNames]. *)
Variable PRISMA_ACTION_ARRAY : list string.
Variable PRISMA_ACTION_ARG_MAP : gmap string FormattedNames.

(** The constructor of [ExtendedDMMFSchemaArg]. *)
Variable newExtendedDMMFSchemaArg :
  GeneratorConfig → DMMF.SchemaArg → option ExtendedDMMFField.t → ExtendedDMMFSchemaArg.t.

Definition _setArgs (generatorConfig : GeneratorConfig)
    (linkedModel : option ExtendedDMMFModel.t) (field : DMMF.SchemaField)
    : list ExtendedDMMFSchemaArg.t :=
  map (λ arg,
         let linkedField :=
           linkedModel ≫= λ model,
             List.find (λ field, bool_decide (ExtendedDMMFField.name field
                                              = DMMF.SchemaArg_name arg))
               (ExtendedDMMFModel.fields model) in
         newExtendedDMMFSchemaArg generatorConfig arg linkedField)
    (DMMF.SchemaField_args field).

(** [None] is the [undefined] that [find] returns when no verb occurs in
    the name; the type assertion of the source does not check it. *)
Definition _setMatchedPrismaAction (name : string) : option string :=
  List.find (λ elem, JS.includes name elem) PRISMA_ACTION_ARRAY.

(** [replace] turns a pattern that is [undefined] into the string
    [undefined]. *)
Definition _setModelType (name : string) (prismaAction : option string) : string :=
  JS.replace (JS.replace name (JS.show prismaAction) "") "OrThrow" "".

(** Indexing the object with [undefined] reads the property of that name. *)
Definition _setArgName (name : string) (prismaAction : option string) (modelType : string)
    : option string :=
  let argName := PRISMA_ACTION_ARG_MAP !! JS.show prismaAction in
  if JS.includes name "OrThrow"
  then Some (modelType +:+ JS.show (pascalCase <$> argName) +:+ "OrThrowArgs")
  else
    match argName with
    | None => None
    | Some argName => Some (modelType +:+ pascalCase argName +:+ "Args")
    end.

(** [modelType] is always a string, so the [typeof] test always holds. *)
Definition _setLinkedModel (modelType : string) (datamodel : ExtendedDMMFDatamodel)
    : option ExtendedDMMFModel.t :=
  List.find (λ model, JS.includes modelType (ExtendedDMMFModel.name model))
    (models datamodel).

Definition _setHasOmitFields (name : string) (linkedModel : option ExtendedDMMFModel.t)
    : bool :=
  let writeOmit := RegExp.test WRITE_REGEX name in
  if writeOmit
  then default false (ExtendedDMMFModel.hasOmitFields <$> linkedModel)
  else false.

Definition includeInSelectAndIncludeArgs_of (name : string) : bool :=
  negb (RegExp.test MANY_REGEX name).

Definition schemaImport (generatorConfig : GeneratorConfig) (type : string) : string :=
  "import { " +:+ type +:+ "Schema } from '../" +:+ inputTypePath generatorConfig
    +:+ "/" +:+ type +:+ "Schema'".

(** Reading [inputTypes[0].type] throws a [TypeError] when the list is
    empty. *)
Definition _setArgTypeImports (generatorConfig : GeneratorConfig) (name modelType : string)
    (linkedModel : option ExtendedDMMFModel.t) (args : list ExtendedDMMFSchemaArg.t)
    : JS.result JS.Set_ :=
  let imports := [] in
  let imports :=
    if includeInSelectAndIncludeArgs_of name
       && default false (ExtendedDMMFModel.hasRelationFields <$> linkedModel)
    then push imports
           ("import { " +:+ modelType +:+ "IncludeSchema } from '../"
              +:+ inputTypePath generatorConfig +:+ "/" +:+ modelType +:+ "IncludeSchema'")
    else imports in
  imports ← JS.forEach (λ imports arg,
      if ExtendedDMMFSchemaArg.hasMultipleTypes arg
      then JS.Ok (foldl (λ imports inputType,
                           push imports (schemaImport generatorConfig (DMMF.type inputType)))
                    imports (ExtendedDMMFSchemaArg.inputTypes arg))
      else
        match ExtendedDMMFSchemaArg.inputTypes arg !! 0 with
        | None => JS.Throw JS.TypeError
        | Some inputType0 =>
            JS.Ok (push imports (schemaImport generatorConfig (DMMF.type inputType0)))
        end) imports args;
  JS.Ok (JS.newSet
           (List.filter (λ imp, negb (JS.includes imp "IntSchema")
                                && negb (JS.includes imp "BooleanSchema")) imports)).

(** The constructor. *)
Definition new (generatorConfig : GeneratorConfig) (field : DMMF.SchemaField)
    (datamodel : ExtendedDMMFDatamodel) : JS.result t :=
  let name := DMMF.SchemaField_name field in
  let prismaAction := _setMatchedPrismaAction name in
  let modelType := _setModelType name prismaAction in
  let argName := _setArgName name prismaAction modelType in
  let linkedModel := _setLinkedModel modelType datamodel in
  let args := _setArgs generatorConfig linkedModel field in
  let hasOmitFields := _setHasOmitFields name linkedModel in
  argTypeImports ← _setArgTypeImports generatorConfig name modelType linkedModel args;
  JS.Ok {|
    generatorConfig := generatorConfig;
    name := name;
    isNullable := DMMF.SchemaField_isNullable field;
    outputType := DMMF.SchemaField_outputType field;
    args := args;
    deprecation := DMMF.SchemaField_deprecation field;
    documentation := DMMF.SchemaField_documentation field;
    prismaAction := prismaAction;
    argName := argName;
    modelType := modelType;
    linkedModel := linkedModel;
    hasOmitFields := hasOmitFields;
    argTypeImports := argTypeImports
  |}.

End Methods.

Definition createCustomOmitFieldArgType (this : t) : bool :=
  hasOmitFields this
  && existsb (λ arg, RegExp.test WRITE_DATA_REGEX (ExtendedDMMFSchemaArg.name arg))
       (args this).

Definition getOmitUnionForCustomArgType (this : t) : string :=
  JS.join " | "
    (map (λ arg, JS.dq +:+ ExtendedDMMFSchemaArg.name arg +:+ JS.dq)
       (List.filter (λ arg, RegExp.test WRITE_DATA_REGEX (ExtendedDMMFSchemaArg.name arg))
          (args this))).

(** The type of one argument of the custom type; the callback of [map]
    reads the index to leave the separator out after the last type. *)
Definition argTypeOf (arg : ExtendedDMMFSchemaArg.t) : JS.result string :=
  if ExtendedDMMFSchemaArg.hasMultipleTypes arg
  then
    JS.Ok (JS.join ""
      (imap (λ idx inputType,
               let writeSeperator :=
                 negb (idx =? length (ExtendedDMMFSchemaArg.inputTypes arg) - 1) in
               "z.infer<typeof " +:+ DMMF.type inputType +:+ "Schema>"
                 +:+ (if writeSeperator then " | " else ""))
         (ExtendedDMMFSchemaArg.inputTypes arg)))
  else
    match ExtendedDMMFSchemaArg.inputTypes arg !! 0 with
    | None => JS.Throw JS.TypeError
    | Some inputType0 =>
        JS.Ok ("z.infer<typeof " +:+ DMMF.type inputType0 +:+ "Schema> "
                 +:+ (if DMMF.isList inputType0 then "[]" else ""))
    end.

Definition getTypeForCustomArgsType (this : t) : JS.result string :=
  args ← JS.forEach (λ args arg,
      if negb (ExtendedDMMFSchemaArg.rewriteArgWithNewType arg) then JS.Ok args
      else
        let argName :=
          ExtendedDMMFSchemaArg.name arg
            +:+ (if ExtendedDMMFSchemaArg.isRequired arg then "" else "?") +:+ ": " in
        argType ← argTypeOf arg;
        JS.Ok (push args (argName +:+ argType))) [] (args this);
  JS.Ok (JS.join ", " args).

Definition isEnumOutputType (this : t) : bool :=
  bool_decide (DMMF.location (outputType this) = "enumTypes").

Definition isListOutputType (this : t) : bool := DMMF.isList (outputType this).

Definition isObjectOutputType (this : t) : bool :=
  bool_decide (DMMF.location (outputType this) = "outputObjectTypes").

Definition isScalarOutputType (this : t) : bool :=
  bool_decide (DMMF.location (outputType this) = "scalar").

Definition isCountField (this : t) : bool := JS.includes (name this) "_count".

Definition includeInSelectAndIncludeArgs (this : t) : bool :=
  includeInSelectAndIncludeArgs_of (name this).

Definition writeSelectFindManyImports (this : t) : bool :=
  isObjectOutputType this && isListOutputType this.

Definition writeSelectImports (this : t) : bool := isObjectOutputType this.

End ExtendedDMMFSchemaField.

(** ** Reference definitions

    What the specification says of the import set, written out on its own:
    the members of a list in the order in which they are first seen, and
    the automatic statements in their fixed order. *)

(** The members of [l] that are not in [seen], each kept where it occurs
    first. *)
Fixpoint firstSeen (seen l : list string) : list string :=
  match l with
  | [] => []
  | x :: l' =>
      if decide (x ∈ seen) then firstSeen seen l' else x :: firstSeen (x :: seen) l'
  end.

Definition NULLABLE_JSON_IMPORT : string :=
  "import { NullableJsonValue } from " +:+ JS.dq +:+ "../helpers".

Definition INPUT_JSON_IMPORT : string :=
  "import { InputJsonValue } from " +:+ JS.dq +:+ "../helpers".

Definition prismaClientImport (generatorConfig : GeneratorConfig) : string :=
  "import * as PrismaClient from '" +:+ prismaClientPath generatorConfig +:+ "'".

Definition enumImport (field : ExtendedDMMFField.t) : string :=
  "import { " +:+ ExtendedDMMFField.type field +:+ "Schema } from '../enums/"
    +:+ ExtendedDMMFField.type field +:+ "Schema'".

Definition when (b : bool) (statement : string) : list string :=
  if b then [statement] else [].

(** The automatic statements in the order of the specification. *)
Definition automaticStatements (generatorConfig : GeneratorConfig)
    (fields : list ExtendedDMMFField.t) : list string :=
  when (existsb (λ f, ExtendedDMMFField.isJsonType f && negb (ExtendedDMMFField.isRequired f))
          fields) NULLABLE_JSON_IMPORT
  ++ when (existsb (λ f, ExtendedDMMFField.isJsonType f && ExtendedDMMFField.isRequired f)
             fields) INPUT_JSON_IMPORT
  ++ when (existsb ExtendedDMMFField.isDecimalType fields) (prismaClientImport generatorConfig)
  ++ map enumImport (filter (λ f, ExtendedDMMFField.kind f = "enum") fields).

(** The statements a directive contributes: none when there is no
    directive. *)
Definition directiveStatements (z : option ExtendedDMMFModel.ZodDirectives) : list string :=
  match z with
  | Some d => ExtendedDMMFModel.statements d
  | None => []
  end.

(** The number of occurrences of a character in a string. *)
Fixpoint occurrences (c : ascii) (s : string) : nat :=
  match s with
  | EmptyString => 0
  | String c' s' => (if bool_decide (c' = c) then 1 else 0) + occurrences c s'
  end.

(** The first model of a graph that bears one of two names. *)
Definition firstNamed (a b : string) (dm : ExtendedDMMFDatamodel)
    : option ExtendedDMMFModel.t :=
  List.find (λ m, bool_decide (ExtendedDMMFModel.name m = a)
                  || bool_decide (ExtendedDMMFModel.name m = b)) (models dm).

(** The characters of an extracted statement: those of the statement
    pattern but the double quote. *)
Definition normalisedChar (c : ascii) : bool :=
  ExtendedDMMFModel.statementChar c && negb (bool_decide (c = ascii_of_nat 34)).

(** Every character of a string satisfies a test. *)
Fixpoint allChars (p : ascii → bool) (s : string) : bool :=
  match s with
  | EmptyString => true
  | String c s' => p c && allChars p s'
  end.

(** The text of one accepted input type in the custom argument type. *)
Definition inferType (inputType : DMMF.TypeRef) : string :=
  "z.infer<typeof " +:+ DMMF.type inputType +:+ "Schema>".

(** The input types of an argument whose imports are emitted: all of them
    for an argument of several types, the first one otherwise. *)
Definition importedTypes (arg : ExtendedDMMFSchemaArg.t) : list DMMF.TypeRef :=
  if ExtendedDMMFSchemaArg.hasMultipleTypes arg
  then ExtendedDMMFSchemaArg.inputTypes arg
  else take 1 (ExtendedDMMFSchemaArg.inputTypes arg).

(** The import statements of the arguments, before filtering: one per
    imported type, argument after argument. *)
Definition argImports (generatorConfig : GeneratorConfig)
    (args : list ExtendedDMMFSchemaArg.t) : list string :=
  arg ← args;
  (λ inputType, ExtendedDMMFSchemaField.schemaImport generatorConfig (DMMF.type inputType))
    <$> importedTypes arg.

(** The import of the include schema of a model type. *)
Definition includeImport (generatorConfig : GeneratorConfig) (modelType : string) : string :=
  "import { " +:+ modelType +:+ "IncludeSchema } from '../"
    +:+ inputTypePath generatorConfig +:+ "/" +:+ modelType +:+ "IncludeSchema'".

(** The statements that the filter of the argument imports keeps. *)
Definition keptImport (imp : string) : bool :=
  negb (JS.includes imp "IntSchema") && negb (JS.includes imp "BooleanSchema").

(** An argument whose first input type is read and is not there. *)
Definition lacksFirstType (arg : ExtendedDMMFSchemaArg.t) : bool :=
  negb (ExtendedDMMFSchemaArg.hasMultipleTypes arg)
  && bool_decide (ExtendedDMMFSchemaArg.inputTypes arg = []).

(** The name of an argument as the custom argument type writes it. *)
Definition entryName (arg : ExtendedDMMFSchemaArg.t) : string :=
  ExtendedDMMFSchemaArg.name arg
    +:+ (if ExtendedDMMFSchemaArg.isRequired arg then "" else "?") +:+ ": ".

(** The type of an argument as the custom argument type writes it: the
    accepted types joined by a bar for an argument of several types, and
    otherwise the first type, with the array marker if it is a list. *)
Definition typeText (arg : ExtendedDMMFSchemaArg.t) : string :=
  if ExtendedDMMFSchemaArg.hasMultipleTypes arg
  then JS.join " | " (map inferType (ExtendedDMMFSchemaArg.inputTypes arg))
  else
    match ExtendedDMMFSchemaArg.inputTypes arg with
    | [] => ""
    | inputType0 :: _ =>
        inferType inputType0 +:+ " " +:+ (if DMMF.isList inputType0 then "[]" else "")
    end.

(** Every argument carries at least one accepted input type. *)
Definition haveInputTypes (args : list ExtendedDMMFSchemaArg.t) : Prop :=
  Forall (λ arg, ExtendedDMMFSchemaArg.inputTypes arg ≠ []) args.

(** The arguments the constructor of an action builds from the raw
    action. *)
Definition constructedArgs (PRISMA_ACTION_ARRAY : list string)
    (newExtendedDMMFSchemaArg :
       GeneratorConfig → DMMF.SchemaArg → option ExtendedDMMFField.t
       → ExtendedDMMFSchemaArg.t)
    (generatorConfig : GeneratorConfig) (field : DMMF.SchemaField)
    (datamodel : ExtendedDMMFDatamodel) : list ExtendedDMMFSchemaArg.t :=
  let name := DMMF.SchemaField_name field in
  let prismaAction :=
    ExtendedDMMFSchemaField._setMatchedPrismaAction PRISMA_ACTION_ARRAY name in
  let modelType := ExtendedDMMFSchemaField._setModelType name prismaAction in
  ExtendedDMMFSchemaField._setArgs newExtendedDMMFSchemaArg generatorConfig
    (ExtendedDMMFSchemaField._setLinkedModel modelType datamodel) field.

(** ** Sample constants

    Instances of the constants and constructors that the sections above
    take as parameters, on which the examples below are run. *)
Module Sample.

(** Modelled from the spec: the constant [IMPORT_STATEMENT_REGEX] of
    [../constants] is not among the sources.  The specification shows the
    directive as the marker [@zod.], a type tag, and between [(\[] and
    [\])] a payload of double-quoted statements separated by commas; the
    payload is read over the characters of the statement pattern. *)
Definition IMPORT_STATEMENT_REGEX : RegExp.regex :=
  RegExp.Seq (RegExp.Lit "@zod.")
    (RegExp.Seq (RegExp.Group (Some "type") (RegExp.Plus RegExp.word))
       (RegExp.Seq (RegExp.Group None (RegExp.Lit "(["))
          (RegExp.Seq
             (RegExp.Group (Some "imports") (RegExp.Plus ExtendedDMMFModel.statementChar))
             (RegExp.Group None (RegExp.Lit "])"))))).

(** Modelled from the spec: the constant [PRISMA_ACTION_ARRAY] of
    [../constants/objectMaps] is not among the sources.  These are the
    verbs the specification names, in its order. *)
Definition PRISMA_ACTION_ARRAY : list string :=
  ["findMany"; "findFirst"; "create"; "update"; "upsert"; "delete"; "aggregate"; "groupBy"].

(** Modelled from the spec: the constant [PRISMA_ACTION_ARG_MAP] of
    [../constants/objectMaps] is not among the sources.  Each verb has the
    label the specification describes, the verb in Pascal case. *)
Definition PRISMA_ACTION_ARG_MAP : gmap string FormattedNames :=
  list_to_map
    [("findMany", {| pascalCase := "FindMany" |});
     ("findFirst", {| pascalCase := "FindFirst" |});
     ("create", {| pascalCase := "Create" |});
     ("update", {| pascalCase := "Update" |});
     ("upsert", {| pascalCase := "Upsert" |});
     ("delete", {| pascalCase := "Delete" |});
     ("aggregate", {| pascalCase := "Aggregate" |});
     ("groupBy", {| pascalCase := "GroupBy" |})].

(** Modelled from the spec: the class [ExtendedDMMFField] is not among the
    sources.  The kind is passed through, the JSON and decimal flags compare
    the declared type with [Json] and [Decimal]; the omit policy, which the
    specification leaves to the field, is read here from the documentation
    of the field. *)
Definition newExtendedDMMFField (generatorConfig : GeneratorConfig) (field : DMMF.Field)
    (modelName : string) : ExtendedDMMFField.t :=
  {| ExtendedDMMFField.name := DMMF.Field_name field;
     ExtendedDMMFField.kind := DMMF.Field_kind field;
     ExtendedDMMFField.type := DMMF.Field_type field;
     ExtendedDMMFField.isRequired := DMMF.Field_isRequired field;
     ExtendedDMMFField.isJsonType := bool_decide (DMMF.Field_type field = "Json");
     ExtendedDMMFField.isDecimalType := bool_decide (DMMF.Field_type field = "Decimal");
     ExtendedDMMFField.isOmitField :=
       JS.includes (default "" (DMMF.Field_documentation field)) "omit";
     ExtendedDMMFField.isOptionalDefaultField := false |}.

(** Modelled from the spec: the class [ExtendedDMMFSchemaArg] is not among
    the sources.  An argument accepts one or many input types and may be
    linked to a field of the linked model; the specification does not fix
    the predicate that says whether an argument is rewritten, and the sample
    rewrites one whose name matches the write or data pattern or whose
    linked field is omit-eligible. *)
Definition newExtendedDMMFSchemaArg (generatorConfig : GeneratorConfig)
    (arg : DMMF.SchemaArg) (linkedField : option ExtendedDMMFField.t)
    : ExtendedDMMFSchemaArg.t :=
  {| ExtendedDMMFSchemaArg.name := DMMF.SchemaArg_name arg;
     ExtendedDMMFSchemaArg.isRequired := DMMF.SchemaArg_isRequired arg;
     ExtendedDMMFSchemaArg.hasMultipleTypes := 1 <? length (DMMF.SchemaArg_inputTypes arg);
     ExtendedDMMFSchemaArg.inputTypes := DMMF.SchemaArg_inputTypes arg;
     ExtendedDMMFSchemaArg.rewriteArgWithNewType :=
       RegExp.test ExtendedDMMFSchemaField.WRITE_DATA_REGEX (DMMF.SchemaArg_name arg)
       || default false (ExtendedDMMFField.isOmitField <$> linkedField) |}.

Definition config : GeneratorConfig :=
  {| inputTypePath := "inputTypeSchemas";
     prismaClientPath := "@prisma/client";
     createOptionalDefaultValuesTypes := false |}.

Definition field (name kind type : string) (isRequired : bool)
    (documentation : option string) : DMMF.Field :=
  {| DMMF.Field_name := name; DMMF.Field_kind := kind; DMMF.Field_type := type;
     DMMF.Field_isRequired := isRequired; DMMF.Field_isList := false;
     DMMF.Field_documentation := documentation |}.

Definition model (name : string) (fields : list DMMF.Field) (documentation : option string)
    : DMMF.Model :=
  {| DMMF.name := name; DMMF.dbName := None; DMMF.fields := fields;
     DMMF.uniqueFields := []; DMMF.uniqueIndexes := [];
     DMMF.documentation := documentation; DMMF.primaryKey := None |}.

Definition newModel (m : DMMF.Model) : JS.result ExtendedDMMFModel.t :=
  ExtendedDMMFModel.new IMPORT_STATEMENT_REGEX newExtendedDMMFField config m.

(** The root graph of the models that can be constructed. *)
Definition datamodel (ms : list DMMF.Model) : ExtendedDMMFDatamodel :=
  {| models := omap (λ m, match newModel m with
                          | JS.Ok m' => Some m'
                          | JS.Throw _ => None
                          end) ms |}.

Definition action (name : string) (args : list DMMF.SchemaArg) : DMMF.SchemaField :=
  {| DMMF.SchemaField_name := name;
     DMMF.SchemaField_isNullable := None;
     DMMF.SchemaField_outputType :=
       {| DMMF.type := "User"; DMMF.isList := true; DMMF.location := "outputObjectTypes" |};
     DMMF.SchemaField_args := args;
     DMMF.SchemaField_deprecation := None;
     DMMF.SchemaField_documentation := None |}.

Definition newAction (f : DMMF.SchemaField) (dm : ExtendedDMMFDatamodel)
    : JS.result ExtendedDMMFSchemaField.t :=
  ExtendedDMMFSchemaField.new PRISMA_ACTION_ARRAY PRISMA_ACTION_ARG_MAP
    newExtendedDMMFSchemaArg config f dm.

Definition inputType (type : string) (isList : bool) : DMMF.TypeRef :=
  {| DMMF.type := type; DMMF.isList := isList; DMMF.location := "inputObjectTypes" |}.

Definition arg (name : string) (isRequired : bool) (inputTypes : list DMMF.TypeRef)
    : DMMF.SchemaArg :=
  {| DMMF.SchemaArg_name := name; DMMF.SchemaArg_isNullable := false;
     DMMF.SchemaArg_isRequired := isRequired; DMMF.SchemaArg_inputTypes := inputTypes |}.

(** The documentation of the specification's example: some text, then a
    directive with one statement. *)
Definition directive (statement : string) : string :=
  "@zod.import([" +:+ JS.dq +:+ statement +:+ JS.dq +:+ "])".

Definition userModel : DMMF.Model :=
  model "User"
    [field "id" "scalar" "Int" true None;
     field "role" "enum" "Role" true None;
     field "posts" "object" "Post" true None;
     field "meta" "scalar" "Json" false None;
     field "backup" "enum" "Role" false None;
     field "secret" "scalar" "String" true (Some "omit")]
    (Some ("some text " +:+ directive "import { x } from 'y'")).

Definition userProfileModel : DMMF.Model :=
  model "UserProfile" [field "id" "scalar" "Int" true None] None.

(** The model [User] of the samples, constructed. *)
Definition sampleUser : ExtendedDMMFModel.t :=
  Eval vm_compute in
    match newModel userModel with
    | JS.Ok m => m
    | JS.Throw _ =>
        {| ExtendedDMMFModel.generatorConfig := config;
           ExtendedDMMFModel.name := ""; ExtendedDMMFModel.dbName := None;
           ExtendedDMMFModel.fields := []; ExtendedDMMFModel.uniqueFields := [];
           ExtendedDMMFModel.uniqueIndexes := []; ExtendedDMMFModel.documentation := None;
           ExtendedDMMFModel.primaryKey := None; ExtendedDMMFModel.scalarFields := [];
           ExtendedDMMFModel.relationFields := []; ExtendedDMMFModel.enumFields := [];
           ExtendedDMMFModel.hasRelationFields := false;
           ExtendedDMMFModel.hasOmitFields := false; ExtendedDMMFModel.imports := [];
           ExtendedDMMFModel.errorLocation := "";
           ExtendedDMMFModel.clearedDocumentation := None |}
    end.


(** A model whose documentation holds a directive of another type. *)
Definition customModel : DMMF.Model :=
  model "Post" [] (Some ("x @zod.custom([" +:+ JS.dq +:+ "a" +:+ JS.dq +:+ "]) y")).

(** A marker of the type [custom]. *)
Definition customMarker (statement : string) : string :=
  "@zod.custom([" +:+ JS.dq +:+ statement +:+ JS.dq +:+ "])".

(** A model whose documentation holds an import directive and, after it, a
    marker of another type. *)
Definition mixedModel : DMMF.Model :=
  model "Post" [] (Some (directive "a" +:+ " and " +:+ customMarker "b")).


(** The two declaration orders of the models [User] and [UserProfile]. *)
Definition userFirst : ExtendedDMMFDatamodel := datamodel [userModel; userProfileModel].

Definition profileFirst : ExtendedDMMFDatamodel := datamodel [userProfileModel; userModel].

(** The arguments of [createManyUser]: the data, one input or a list of
    them, and a flag. *)
Definition createManyRawArgs : list DMMF.SchemaArg :=
  [arg "data" true
     [inputType "UserCreateManyInput" false; inputType "UserCreateManyInput" true];
   arg "skipDuplicates" false [inputType "Boolean" false]].

Definition createManyArgs : list ExtendedDMMFSchemaArg.t :=
  map (λ a, newExtendedDMMFSchemaArg config a
              (List.find (λ field, bool_decide (ExtendedDMMFField.name field
                                                = DMMF.SchemaArg_name a))
                 (ExtendedDMMFModel.fields sampleUser)))
    createManyRawArgs.


(** The arguments of [findManyUser]: a filter and two numbers. *)
Definition findManyRawArgs : list DMMF.SchemaArg :=
  [arg "where" false [inputType "UserWhereInput" false];
   arg "take" false [inputType "Int" false];
   arg "cursor" false [inputType "BigInt" false]].

End Sample.

(** ** Facts about strings *)
Section StringFacts.

Implicit Types s t pre post : string.

Lemma append_nil_r s : s +:+ "" = s.
Proof. induction s as [|c s IH]; simpl; [done | by rewrite IH]. Qed.

Lemma append_assoc s1 s2 s3 : (s1 +:+ s2) +:+ s3 = s1 +:+ s2 +:+ s3.
Proof. induction s1 as [|c s1 IH]; simpl; [done | by rewrite IH]. Qed.

Lemma startsWith_append t s : JS.startsWith (t +:+ s) t = true.
Proof.
  induction t as [|c t IH]; simpl; [done |].
  by rewrite bool_decide_eq_true_2.
Qed.

Lemma slice_append t s : JS.slice (String.length t) (t +:+ s) = s.
Proof. induction t as [|c t IH]; simpl; [by destruct s | done]. Qed.

Lemma startsWith_inv s t :
  JS.startsWith s t = true → s = t +:+ JS.slice (String.length t) s.
Proof.
  revert s. induction t as [|c t IH]; intros s H; simpl in *; [by destruct s |].
  destruct s as [|c' s]; [done |].
  apply andb_true_iff in H as [->%bool_decide_eq_true H].
  f_equal. by apply IH.
Qed.

Lemma includes_eq s t :
  JS.includes s t =
  if JS.startsWith s t then true
  else match s with
       | EmptyString => false
       | String _ s' => JS.includes s' t
       end.
Proof. by destruct s. Qed.

Lemma includes_intro pre t post : JS.includes (pre +:+ t +:+ post) t = true.
Proof.
  induction pre as [|c pre IH]; simpl.
  - by rewrite includes_eq, startsWith_append.
  - rewrite IH. by destruct (JS.startsWith _ _).
Qed.

Lemma includes_inv s t :
  JS.includes s t = true → ∃ pre post, s = pre +:+ t +:+ post.
Proof.
  induction s as [|c s IH]; simpl.
  - destruct (JS.startsWith "" t) eqn:E; [| done]. intros _.
    exists "", (JS.slice (String.length t) ""). by apply startsWith_inv.
  - destruct (JS.startsWith (String c s) t) eqn:E.
    + intros _. exists "", (JS.slice (String.length t) (String c s)).
      by apply startsWith_inv.
    + intros H. destruct (IH H) as (pre & post & ->).
      by exists (String c pre), post.
Qed.

Lemma replace_absent s t rep : JS.includes s t = false → JS.replace s t rep = s.
Proof.
  induction s as [|c s IH]; simpl.
  - by destruct (JS.startsWith "" t).
  - destruct (JS.startsWith (String c s) t); [done |].
    intros H. by rewrite IH.
Qed.

(** [replace] removes the first occurrence of the pattern, and that one
    only. *)
Lemma replace_first s t :
  JS.includes s t = true →
  ∃ pre post,
    s = pre +:+ t +:+ post ∧ JS.replace s t "" = pre +:+ post
    ∧ ∀ pre' post', s = pre' +:+ t +:+ post' → String.length pre ≤ String.length pre'.
Proof.
  induction s as [|c s IH]; simpl.
  - destruct (JS.startsWith "" t) eqn:E; [| done]. intros _.
    exists "", (JS.slice (String.length t) ""). split_and!; simpl; [| done | lia].
    by apply startsWith_inv.
  - destruct (JS.startsWith (String c s) t) eqn:E.
    + intros _. exists "", (JS.slice (String.length t) (String c s)).
      split_and!; simpl; [| done | lia]. by apply startsWith_inv.
    + intros H. destruct (IH H) as (pre & post & -> & Hr & Hmin).
      exists (String c pre), post. split_and!; simpl; [done | by rewrite Hr |].
      intros [|c' pre'] post' Heq; simpl in Heq.
      * rewrite Heq, startsWith_append in E. done.
      * injection Heq as -> Heq. simpl. apply Hmin in Heq. lia.
Qed.

Lemma occurrences_append c s t :
  occurrences c (s +:+ t) = occurrences c s + occurrences c t.
Proof. induction s as [|c' s IH]; simpl; [done | rewrite IH; lia]. Qed.

End StringFacts.

(** ** Facts about matching *)
Section RegExpFacts.

Lemma greedy_sound cls s w :
  w ∈ RegExp.greedy cls s → s = RegExp.consumed w +:+ RegExp.rest w.
Proof.
  revert w. induction s as [|c s IH]; intros w; simpl; [by intros ?%elem_of_nil |].
  destruct (cls c); [| by intros ?%elem_of_nil].
  rewrite elem_of_app, list_elem_of_fmap, list_elem_of_singleton.
  intros [(w' & -> & Hw') | ->]; simpl; [| done].
  f_equal. by apply IH.
Qed.

Lemma run_sound r s w :
  w ∈ RegExp.run r s → s = RegExp.consumed w +:+ RegExp.rest w.
Proof.
  revert s w. induction r as [t | cls | r1 IH1 r2 IH2 | r1 IH1 r2 IH2 | name r IH];
    intros s w; simpl.
  - destruct (JS.startsWith s t) eqn:E; [| by intros ?%elem_of_nil].
    intros ->%list_elem_of_singleton. simpl. by apply startsWith_inv.
  - apply greedy_sound.
  - rewrite list_elem_of_bind. intros (w1 & Hw & Hw1).
    apply list_elem_of_bind in Hw as (w2 & Hw & Hw2).
    apply list_elem_of_singleton in Hw as ->. simpl.
    rewrite append_assoc, <- (IH2 _ _ Hw2). by apply IH1.
  - rewrite elem_of_app. intros [H | H]; eauto.
  - rewrite list_elem_of_fmap. intros (w' & -> & Hw'). simpl. by apply IH.
Qed.

Lemma exec_from_sound r s i m :
  RegExp.exec_from r i s = Some m → ∃ pre post, s = pre +:+ RegExp.matched m +:+ post.
Proof.
  revert i. induction s as [|c s IH]; intros i; simpl.
  - destruct (RegExp.run r "") as [|w ws] eqn:E; [done |].
    intros [= <-]. simpl. exists "", (RegExp.rest w).
    apply (run_sound r). rewrite E. by left.
  - destruct (RegExp.run r (String c s)) as [|w ws] eqn:E.
    + intros (pre & post & ->)%IH. by exists (String c pre), post.
    + intros [= <-]. simpl. exists "", (RegExp.rest w).
      apply (run_sound r). rewrite E. by left.
Qed.

(** The text a match returns occurs in the string that was searched. *)
Lemma match_includes s r m :
  RegExp.match_ s r = Some m → JS.includes s (RegExp.matched m) = true.
Proof.
  intros (pre & post & ->)%exec_from_sound. apply includes_intro.
Qed.

End RegExpFacts.

(** ** Facts about insertion-ordered sets *)
Section SetFacts.

Implicit Types seen l acc : list string.

Lemma firstSeen_ext seen seen' l :
  (∀ x, x ∈ seen ↔ x ∈ seen') → firstSeen seen l = firstSeen seen' l.
Proof.
  revert seen seen'. induction l as [|x l IH]; intros seen seen' H; simpl; [done |].
  destruct (decide (x ∈ seen)) as [Hx | Hx], (decide (x ∈ seen')) as [Hx' | Hx'].
  - by apply IH.
  - by apply H in Hx.
  - by apply H in Hx'.
  - f_equal. apply IH. set_solver.
Qed.

(** The fold that [new Set] runs appends to the accumulator the members not
    yet seen. *)
Lemma foldl_add acc l : foldl JS.add acc l = acc ++ firstSeen acc l.
Proof.
  revert acc. induction l as [|x l IH]; intros acc; simpl; [by rewrite app_nil_r |].
  rewrite IH. unfold JS.add, JS.has.
  destruct (decide (x ∈ acc)) as [Hx | Hx].
  - by rewrite bool_decide_eq_true_2.
  - rewrite bool_decide_eq_false_2 by done. rewrite <- app_assoc. simpl.
    do 2 f_equal. apply firstSeen_ext. set_solver.
Qed.

Lemma newSet_firstSeen l : JS.newSet l = firstSeen [] l.
Proof. unfold JS.newSet. by rewrite foldl_add. Qed.

Lemma firstSeen_elem_of seen l x : x ∈ firstSeen seen l ↔ x ∈ l ∧ x ∉ seen.
Proof.
  revert seen. induction l as [|y l IH]; intros seen; simpl.
  - set_solver.
  - destruct (decide (y ∈ seen)) as [Hy | Hy].
    + rewrite IH. set_solver.
    + rewrite elem_of_cons, IH. destruct (decide (x = y)); set_solver.
Qed.

Lemma firstSeen_NoDup seen l : NoDup (firstSeen seen l).
Proof.
  revert seen. induction l as [|y l IH]; intros seen; simpl; [constructor |].
  destruct (decide (y ∈ seen)); [done |].
  constructor; [| done]. rewrite firstSeen_elem_of. set_solver.
Qed.

Lemma firstSeen_sublist seen l : firstSeen seen l `sublist_of` l.
Proof.
  revert seen. induction l as [|y l IH]; intros seen; simpl; [done |].
  destruct (decide (y ∈ seen)); [by apply sublist_cons | by apply sublist_skip].
Qed.

(** The members of a first list come first, those of a second list follow
    if they are new. *)
Lemma firstSeen_app seen l k :
  firstSeen seen (l ++ k) = firstSeen seen l ++ firstSeen (l ++ seen) k.
Proof.
  revert seen. induction l as [|y l IH]; intros seen; simpl; [done |].
  destruct (decide (y ∈ seen)) as [Hy | Hy]; rewrite IH.
  - f_equal. apply firstSeen_ext. set_solver.
  - simpl. do 2 f_equal. apply firstSeen_ext. set_solver.
Qed.

End SetFacts.

(** ** The model: field lists, import set and directives *)

(** The three filters of a list of fields whose kinds are among the three
    tags rebuild the list up to order. *)
Lemma kind_filters_Permutation (l : list ExtendedDMMFField.t) :
  Forall (λ f, ExtendedDMMFField.kind f ∈ ["scalar"; "object"; "enum"]) l →
  ExtendedDMMFModel._setScalarFields l ++ ExtendedDMMFModel._setRelationFields l
    ++ ExtendedDMMFModel._setEnumfields l ≡ₚ l.
Proof.
  unfold ExtendedDMMFModel._setScalarFields, ExtendedDMMFModel._setRelationFields,
    ExtendedDMMFModel._setEnumfields.
  induction 1 as [|f l Hf _ IH]; [done |].
  rewrite !filter_cons.
  apply elem_of_cons in Hf as [Hk | Hf]; [| apply elem_of_cons in Hf as [Hk | Hf]];
    [| | apply list_elem_of_singleton in Hf as Hk];
    rewrite Hk; repeat case_decide; try done; simpl.
  - by rewrite IH.
  - by rewrite <- Permutation_middle, IH.
  - by rewrite app_assoc, <- Permutation_middle, <- app_assoc, IH.
Qed.

Lemma kind_filters_disjoint (l : list ExtendedDMMFField.t) (k1 k2 : string) f :
  k1 ≠ k2 →
  f ∈ filter (λ f, ExtendedDMMFField.kind f = k1) l →
  f ∉ filter (λ f, ExtendedDMMFField.kind f = k2) l.
Proof. rewrite !list_elem_of_filter. naive_solver. Qed.

Section ModelClaims.

Variable IMPORT_STATEMENT_REGEX : RegExp.regex.
Variable newExtendedDMMFField : GeneratorConfig → DMMF.Field → string → ExtendedDMMFField.t.

#[local] Abbreviation new := (ExtendedDMMFModel.new IMPORT_STATEMENT_REGEX newExtendedDMMFField).
#[local] Abbreviation _extractZodDirectives := (ExtendedDMMFModel._extractZodDirectives IMPORT_STATEMENT_REGEX).

(** What a successful construction has computed. *)
Lemma new_Ok generatorConfig model m :
  new generatorConfig model = JS.Ok m →
  let fields := map (λ field, newExtendedDMMFField generatorConfig field (DMMF.name model))
                  (DMMF.fields model) in
  ∃ z,
    _extractZodDirectives (DMMF.documentation model)
      (ExtendedDMMFModel._setErrorLocation (DMMF.name model)) = JS.Ok z
    ∧ ExtendedDMMFModel.name m = DMMF.name model
    ∧ ExtendedDMMFModel.fields m = fields
    ∧ ExtendedDMMFModel.scalarFields m = ExtendedDMMFModel._setScalarFields fields
    ∧ ExtendedDMMFModel.relationFields m = ExtendedDMMFModel._setRelationFields fields
    ∧ ExtendedDMMFModel.enumFields m = ExtendedDMMFModel._setEnumfields fields
    ∧ ExtendedDMMFModel.imports m =
        JS.newSet (directiveStatements z
                     ++ ExtendedDMMFModel._getAutomaticImports generatorConfig fields
                          (ExtendedDMMFModel._setEnumfields fields))
    ∧ ExtendedDMMFModel.clearedDocumentation m =
        ExtendedDMMFModel.directives_clearedDocumentation <$> z.
Proof.
  unfold ExtendedDMMFModel.new, ExtendedDMMFModel._getDocumentationContent,
    ExtendedDMMFModel._getExtendedFields.
  destruct (_extractZodDirectives _ _) as [z | e] eqn:E; simpl; [| done].
  intros Hm. exists z. split; [done |].
  destruct z as [d |]; simpl in Hm; injection Hm as <-; simpl; split_and!; done.
Qed.

(** C1: for every constructed model whose fields all bear one of the kinds
    scalar, object and enum, the lists scalarFields, relationFields and
    enumFields partition the field list: together they hold the fields of
    the list, each as often as the list does; each is a sublist of the
    field list, so keeps the declaration order; no field is in two of
    them; and their lengths add up to the length of the field list. *)
Theorem fields_partition generatorConfig model m :
  new generatorConfig model = JS.Ok m →
  Forall (λ f, ExtendedDMMFField.kind f ∈ ["scalar"; "object"; "enum"])
    (ExtendedDMMFModel.fields m) →
  ExtendedDMMFModel.fields m
    = map (λ field, newExtendedDMMFField generatorConfig field (DMMF.name model))
        (DMMF.fields model)
  ∧ ExtendedDMMFModel.scalarFields m ++ ExtendedDMMFModel.relationFields m
      ++ ExtendedDMMFModel.enumFields m ≡ₚ ExtendedDMMFModel.fields m
  ∧ ExtendedDMMFModel.scalarFields m `sublist_of` ExtendedDMMFModel.fields m
  ∧ ExtendedDMMFModel.relationFields m `sublist_of` ExtendedDMMFModel.fields m
  ∧ ExtendedDMMFModel.enumFields m `sublist_of` ExtendedDMMFModel.fields m
  ∧ (∀ f, f ∈ ExtendedDMMFModel.scalarFields m → f ∉ ExtendedDMMFModel.relationFields m)
  ∧ (∀ f, f ∈ ExtendedDMMFModel.scalarFields m → f ∉ ExtendedDMMFModel.enumFields m)
  ∧ (∀ f, f ∈ ExtendedDMMFModel.relationFields m → f ∉ ExtendedDMMFModel.enumFields m)
  ∧ length (ExtendedDMMFModel.scalarFields m) + length (ExtendedDMMFModel.relationFields m)
      + length (ExtendedDMMFModel.enumFields m) = length (ExtendedDMMFModel.fields m).
Proof.
  intros (z & _ & _ & Hf & Hs & Hr & He & _)%new_Ok Hkinds.
  rewrite Hs, Hr, He, <- !Hf. clear Hs Hr He.
  pose proof (kind_filters_Permutation _ Hkinds) as Hperm.
  split_and!; try done.
  - apply sublist_filter.
  - apply sublist_filter.
  - apply sublist_filter.
  - intros f. by apply kind_filters_disjoint.
  - intros f. by apply kind_filters_disjoint.
  - intros f. by apply kind_filters_disjoint.
  - rewrite <- (Permutation_length Hperm), !length_app. lia.
Qed.

Lemma foldl_push {A} (f : A → string) (acc : list string) (l : list A) :
  foldl (λ statements x, ExtendedDMMFModel.push statements (f x)) acc l = acc ++ map f l.
Proof.
  revert acc. induction l as [|x l IH]; intros acc; simpl; [by rewrite app_nil_r |].
  unfold ExtendedDMMFModel.push at 2. by rewrite IH, <- app_assoc.
Qed.

(** The pushes of [_getAutomaticImports] produce the statements in the
    order of the specification. *)
Lemma _getAutomaticImports_automaticStatements generatorConfig fields :
  ExtendedDMMFModel._getAutomaticImports generatorConfig fields
    (ExtendedDMMFModel._setEnumfields fields)
  = automaticStatements generatorConfig fields.
Proof.
  unfold ExtendedDMMFModel._getAutomaticImports, automaticStatements, when,
    ExtendedDMMFModel._setEnumfields.
  rewrite (foldl_push enumImport).
  destruct (existsb _ fields), (existsb _ fields), (existsb _ fields); reflexivity.
Qed.

Lemma NoDup_once (l : list string) (x : string) :
  NoDup l → x ∈ l → length (filter (λ y, y = x) l) = 1.
Proof.
  induction 1 as [|y l Hy Hl IH]; [by intros ?%elem_of_nil |].
  rewrite filter_cons. intros [-> | Hx]%elem_of_cons.
  - rewrite decide_True by done. simpl. f_equal.
    destruct (filter (λ y', y' = y) l) as [|z k] eqn:E; [done |].
    assert (z ∈ filter (λ y', y' = y) l) as Hz by (rewrite E; left).
    apply list_elem_of_filter in Hz as [-> Hz]. done.
  - rewrite decide_False by (intros ->; done). by apply IH.
Qed.

(** C4: the import set of a constructed model holds the directive
    statements followed by the automatic statements, each statement once
    and at the place where it is first seen, membership being equality of
    strings; the automatic statements come in the order nullable-JSON
    helper, input-JSON helper, database client, then one enum-schema import
    per enum field; a statement that occurs several times in that list, as
    the import of an enum that two fields share, is one entry of the set. *)
Theorem imports_first_seen generatorConfig model m :
  new generatorConfig model = JS.Ok m →
  ∃ z,
    _extractZodDirectives (ExtendedDMMFModel.documentation m)
      (ExtendedDMMFModel.errorLocation m) = JS.Ok z
    ∧ let directive := directiveStatements z in
      let automatic := automaticStatements generatorConfig (ExtendedDMMFModel.fields m) in
      ExtendedDMMFModel._getAutomaticImports generatorConfig
        (ExtendedDMMFModel.fields m) (ExtendedDMMFModel.enumFields m) = automatic
      ∧ ExtendedDMMFModel.imports m = firstSeen [] (directive ++ automatic)
      ∧ ExtendedDMMFModel.imports m = firstSeen [] directive ++ firstSeen directive automatic
      ∧ NoDup (ExtendedDMMFModel.imports m)
      ∧ (∀ s, s ∈ ExtendedDMMFModel.imports m ↔ s ∈ directive ∨ s ∈ automatic)
      ∧ ExtendedDMMFModel.imports m `sublist_of` directive ++ automatic
      ∧ (∀ s, s ∈ directive ++ automatic →
              length (filter (λ x, x = s) (ExtendedDMMFModel.imports m)) = 1).
Proof.
  intros Hnew. pose proof Hnew as (z & Hz & Hname & Hf & _ & _ & He & Hi & _)%new_Ok.
  exists z. split.
  { unfold ExtendedDMMFModel.new in Hnew.
    destruct (ExtendedDMMFModel._getDocumentationContent _ _ _ _ _ _); [| done].
    simpl in Hnew. injection Hnew as <-. done. }
  simpl. rewrite He, Hi, <- Hf, _getAutomaticImports_automaticStatements, newSet_firstSeen.
  split_and!.
  - done.
  - done.
  - rewrite firstSeen_app. f_equal. apply firstSeen_ext. set_solver.
  - apply firstSeen_NoDup.
  - intros s. rewrite firstSeen_elem_of. set_solver.
  - apply firstSeen_sublist.
  - intros s Hs. apply NoDup_once; [apply firstSeen_NoDup |].
    rewrite firstSeen_elem_of. set_solver.
Qed.

(** C5, as the code has it: the documentation is matched once, and the
    first marker decides.  When the type tag of the first marker is not the
    keyword import, construction throws an error whose message includes the
    name of the model, and yields no model; when it is the keyword import,
    extraction raises no error and the model is constructed, whatever the
    type tags of the markers that follow.  (A documentation that holds a
    marker is not empty.) *)
Theorem directive_error generatorConfig model doc importStatements :
  DMMF.documentation model = Some doc →
  doc ≠ "" →
  RegExp.match_ doc IMPORT_STATEMENT_REGEX = Some importStatements →
  (RegExp.group importStatements "type" ≠ Some "import" →
   ∃ message,
     new generatorConfig model = JS.Throw (JS.Error message)
     ∧ JS.includes message (DMMF.name model) = true
     ∧ ∀ m, new generatorConfig model ≠ JS.Ok m)
  ∧ (RegExp.group importStatements "type" = Some "import" →
     (∃ z, _extractZodDirectives (Some doc)
             (ExtendedDMMFModel._setErrorLocation (DMMF.name model)) = JS.Ok z)
     ∧ ∃ m, new generatorConfig model = JS.Ok m).
Proof.
  intros Hdoc Hne Hmatch.
  unfold ExtendedDMMFModel.new, ExtendedDMMFModel._getDocumentationContent,
    ExtendedDMMFModel._extractZodDirectives, ExtendedDMMFModel._setErrorLocation.
  rewrite Hdoc. destruct doc as [|c doc]; [done |].
  rewrite Hmatch. split; intros Htype.
  - rewrite bool_decide_eq_true_2 by done.
    eexists. split_and!; [reflexivity | | done].
    rewrite <- !append_assoc, append_assoc. apply includes_intro.
  - rewrite bool_decide_eq_false_2 by (by intros []).
    destruct (RegExp.group importStatements "imports"); simpl;
      (split; [by eexists | by eexists]).
Qed.

(** The text that [_extractZodDirectives] clears is an occurrence of the
    matched text, the first one. *)
Lemma cleared_first_occurrence doc errorLocation z :
  _extractZodDirectives (Some doc) errorLocation = JS.Ok (Some z) →
  ∃ importStatements pre post,
    RegExp.match_ doc IMPORT_STATEMENT_REGEX = Some importStatements
    ∧ doc = pre +:+ RegExp.matched importStatements +:+ post
    ∧ ExtendedDMMFModel.directives_clearedDocumentation z = pre +:+ post
    ∧ ∀ pre' post', doc = pre' +:+ RegExp.matched importStatements +:+ post' →
        String.length pre ≤ String.length pre'.
Proof.
  unfold ExtendedDMMFModel._extractZodDirectives.
  destruct doc as [|c doc]; [done |].
  destruct (RegExp.match_ _ _) as [importStatements |] eqn:Hmatch; [| done].
  case_bool_decide; [done |].
  destruct (RegExp.group importStatements "imports"); simpl; [| done].
  intros [= <-]. simpl.
  destruct (replace_first _ _ (match_includes _ _ _ Hmatch)) as (pre & post & H1 & H2 & H3).
  by exists importStatements, pre, post.
Qed.

Lemma extraction_no_match doc errorLocation :
  RegExp.match_ doc IMPORT_STATEMENT_REGEX = None →
  _extractZodDirectives (Some doc) errorLocation = JS.Ok None.
Proof.
  unfold ExtendedDMMFModel._extractZodDirectives.
  destruct doc as [|c doc]; [done |]. by intros ->.
Qed.

(** C6, as the code has it: extraction removes the first occurrence of
    the matched directive text and nothing else; and when the marker of
    the pattern begins with the character [@] and the documentation holds
    that character once, extraction on the cleared documentation finds no
    directive. *)
Theorem extraction_on_cleared doc errorLocation z :
  (∀ s importStatements,
     RegExp.match_ s IMPORT_STATEMENT_REGEX = Some importStatements →
     JS.startsWith (RegExp.matched importStatements) "@" = true) →
  _extractZodDirectives (Some doc) errorLocation = JS.Ok (Some z) →
  (∃ importStatements pre post,
     RegExp.match_ doc IMPORT_STATEMENT_REGEX = Some importStatements
     ∧ doc = pre +:+ RegExp.matched importStatements +:+ post
     ∧ ExtendedDMMFModel.directives_clearedDocumentation z = pre +:+ post
     ∧ ∀ pre' post', doc = pre' +:+ RegExp.matched importStatements +:+ post' →
         String.length pre ≤ String.length pre')
  ∧ (occurrences "@" doc = 1 →
     _extractZodDirectives (Some (ExtendedDMMFModel.directives_clearedDocumentation z))
       errorLocation = JS.Ok None).
Proof.
  intros Hmarker Hz.
  pose proof (cleared_first_occurrence _ _ _ Hz) as (ms & pre & post & Hm & Hdoc & Hc & Hmin).
  split; [by exists ms, pre, post |].
  intros Hocc. rewrite Hc.
  assert (occurrences "@" (pre +:+ post) = 0) as Hnone.
  { pose proof (startsWith_inv _ _ (Hmarker _ _ Hm)) as Hat.
    rewrite Hdoc, Hat, !occurrences_append in Hocc. simpl in Hocc.
    rewrite occurrences_append. lia. }
  destruct (RegExp.match_ (pre +:+ post) IMPORT_STATEMENT_REGEX) as [ms' |] eqn:Hm';
    [exfalso | by apply extraction_no_match].
  pose proof (startsWith_inv _ _ (Hmarker _ _ Hm')) as Hat.
  apply match_includes, includes_inv in Hm' as (pre' & post' & Heq).
  rewrite Heq, Hat, !occurrences_append in Hnone. simpl in Hnone. lia.
Qed.

End ModelClaims.

(** ** The action: verb, names, linked model and argument types *)

Lemma find_ext_in {A} (p q : A → bool) (l : list A) :
  Forall (λ x, p x = q x) l → List.find p l = List.find q l.
Proof. induction 1 as [|x l Hx _ IH]; simpl; [done |]. by rewrite Hx, IH. Qed.

Lemma find_only {A} (p : A → bool) (l : list A) (a : A) :
  a ∈ l → (∀ x, x ∈ l → p x = true → x = a) → p a = true → List.find p l = Some a.
Proof.
  induction l as [|x l IH]; [by intros ?%elem_of_nil |].
  intros Ha Honly Hp. simpl. destruct (p x) eqn:Hx.
  - f_equal. apply Honly; [by left | done].
  - apply IH; [| intros y Hy; apply Honly; by right | done].
    apply elem_of_cons in Ha as [-> | Ha]; [congruence | done].
Qed.

Lemma find_none_Forall {A} (p : A → bool) (l : list A) :
  Forall (λ x, p x = false) l → List.find p l = None.
Proof. induction 1 as [|x l Hx _ IH]; simpl; [done |]. by rewrite Hx. Qed.

Lemma find_is_Some {A} (p : A → bool) (l : list A) :
  Exists (λ x, p x = true) l → ∃ x, List.find p l = Some x ∧ p x = true.
Proof.
  induction 1 as [x l Hx | x l _ IH]; simpl.
  - rewrite Hx. by exists x.
  - destruct (p x) eqn:Hx; [by exists x | done].
Qed.

Lemma includes_append_r s x t :
  JS.includes s t = true → JS.includes (s +:+ x) t = true.
Proof.
  intros (pre & post & ->)%includes_inv.
  rewrite !append_assoc. apply includes_intro.
Qed.

(** A loop whose body succeeds on every element succeeds. *)
Lemma forEach_Ok {A St} (f : St → A → JS.result St) (st : St) (l : list A) :
  Forall (λ x, ∀ st, ∃ st', f st x = JS.Ok st') l → ∃ st', JS.forEach f st l = JS.Ok st'.
Proof.
  intros H. revert st. induction H as [|x l Hx _ IH]; intros st; simpl; [by eexists |].
  destruct (Hx st) as [st' ->]. simpl. apply IH.
Qed.

Lemma forEach_Throw {A St} (f : St → A → JS.result St) (st : St) (l : list A) e :
  JS.forEach f st l = JS.Throw e → ∃ x st', x ∈ l ∧ f st' x = JS.Throw e.
Proof.
  revert st. induction l as [|x l IH]; intros st; simpl; [done |].
  destruct (f st x) as [st' | e'] eqn:E; simpl.
  - intros (y & st'' & Hy & H)%IH. exists y, st''. split; [by right | done].
  - intros [= ->]. exists x, st. split; [by left | done].
Qed.

Lemma argTypeOf_Ok arg :
  ExtendedDMMFSchemaArg.inputTypes arg ≠ [] →
  ∃ argType, ExtendedDMMFSchemaField.argTypeOf arg = JS.Ok argType.
Proof.
  unfold ExtendedDMMFSchemaField.argTypeOf. intros H.
  destruct (ExtendedDMMFSchemaArg.hasMultipleTypes arg); [by eexists |].
  destruct (ExtendedDMMFSchemaArg.inputTypes arg); [done | by eexists].
Qed.

Lemma _setArgTypeImports_Ok generatorConfig name modelType linkedModel args :
  haveInputTypes args →
  ∃ imports,
    ExtendedDMMFSchemaField._setArgTypeImports generatorConfig name modelType linkedModel args
    = JS.Ok imports.
Proof.
  intros H. unfold ExtendedDMMFSchemaField._setArgTypeImports.
  match goal with
  | |- context [JS.forEach ?f ?st args] => destruct (forEach_Ok f st args) as [imports ->]
  end; [| by eexists].
  eapply Forall_impl; [exact H |]. intros arg Harg st. simpl in *.
  destruct (ExtendedDMMFSchemaArg.hasMultipleTypes arg); [by eexists |].
  destruct (ExtendedDMMFSchemaArg.inputTypes arg); [done | by eexists].
Qed.

Lemma getTypeForCustomArgsType_Ok this :
  haveInputTypes (ExtendedDMMFSchemaField.args this) →
  ∃ type, ExtendedDMMFSchemaField.getTypeForCustomArgsType this = JS.Ok type.
Proof.
  intros H. unfold ExtendedDMMFSchemaField.getTypeForCustomArgsType.
  match goal with
  | |- context [JS.forEach ?f ?st ?l] => destruct (forEach_Ok f st l) as [args ->]
  end; [| by eexists].
  eapply Forall_impl; [exact H |]. intros arg Harg st. simpl in *.
  destruct (ExtendedDMMFSchemaArg.rewriteArgWithNewType arg); simpl; [| by eexists].
  destruct (argTypeOf_Ok arg Harg) as [argType ->]. by eexists.
Qed.

(** In an argument of several types the list flag of the types is not
    read. *)
Lemma argTypeOf_multiple_isList arg (flip : DMMF.TypeRef → bool) :
  ExtendedDMMFSchemaArg.hasMultipleTypes arg = true →
  ExtendedDMMFSchemaField.argTypeOf arg
  = ExtendedDMMFSchemaField.argTypeOf
      {| ExtendedDMMFSchemaArg.name := ExtendedDMMFSchemaArg.name arg;
         ExtendedDMMFSchemaArg.isRequired := ExtendedDMMFSchemaArg.isRequired arg;
         ExtendedDMMFSchemaArg.hasMultipleTypes := true;
         ExtendedDMMFSchemaArg.inputTypes :=
           map (λ t, {| DMMF.type := DMMF.type t; DMMF.isList := flip t;
                        DMMF.location := DMMF.location t |})
             (ExtendedDMMFSchemaArg.inputTypes arg);
         ExtendedDMMFSchemaArg.rewriteArgWithNewType :=
           ExtendedDMMFSchemaArg.rewriteArgWithNewType arg |}.
Proof.
  unfold ExtendedDMMFSchemaField.argTypeOf. intros ->. simpl.
  by rewrite imap_fmap, length_map.
Qed.

(** An argument of one type has the array marker if and only if that type
    is a list. *)
Lemma argTypeOf_single arg inputType others :
  ExtendedDMMFSchemaArg.hasMultipleTypes arg = false →
  ExtendedDMMFSchemaArg.inputTypes arg = inputType :: others →
  ExtendedDMMFSchemaField.argTypeOf arg
  = JS.Ok ("z.infer<typeof " +:+ DMMF.type inputType +:+ "Schema> "
             +:+ (if DMMF.isList inputType then "[]" else "")).
Proof. unfold ExtendedDMMFSchemaField.argTypeOf. by intros -> ->. Qed.

Section ActionClaims.

Variable PRISMA_ACTION_ARRAY : list string.
Variable PRISMA_ACTION_ARG_MAP : gmap string FormattedNames.
Variable newExtendedDMMFSchemaArg :
  GeneratorConfig → DMMF.SchemaArg → option ExtendedDMMFField.t → ExtendedDMMFSchemaArg.t.

#[local] Abbreviation new :=
  (ExtendedDMMFSchemaField.new PRISMA_ACTION_ARRAY PRISMA_ACTION_ARG_MAP
     newExtendedDMMFSchemaArg).
#[local] Abbreviation _setMatchedPrismaAction :=
  (ExtendedDMMFSchemaField._setMatchedPrismaAction PRISMA_ACTION_ARRAY).
#[local] Abbreviation _setArgName :=
  (ExtendedDMMFSchemaField._setArgName PRISMA_ACTION_ARG_MAP).
#[local] Abbreviation _setArgs :=
  (ExtendedDMMFSchemaField._setArgs newExtendedDMMFSchemaArg).

#[local] Abbreviation argsOf :=
  (constructedArgs PRISMA_ACTION_ARRAY newExtendedDMMFSchemaArg).

(** What a successful construction has computed. *)
Lemma new_action_Ok generatorConfig field datamodel this :
  new generatorConfig field datamodel = JS.Ok this →
  let name := DMMF.SchemaField_name field in
  ExtendedDMMFSchemaField.name this = name
  ∧ ExtendedDMMFSchemaField.prismaAction this = _setMatchedPrismaAction name
  ∧ ExtendedDMMFSchemaField.modelType this
      = ExtendedDMMFSchemaField._setModelType name (_setMatchedPrismaAction name)
  ∧ ExtendedDMMFSchemaField.argName this
      = _setArgName name (_setMatchedPrismaAction name)
          (ExtendedDMMFSchemaField._setModelType name (_setMatchedPrismaAction name))
  ∧ ExtendedDMMFSchemaField.linkedModel this
      = ExtendedDMMFSchemaField._setLinkedModel
          (ExtendedDMMFSchemaField._setModelType name (_setMatchedPrismaAction name)) datamodel
  ∧ ExtendedDMMFSchemaField.args this = argsOf generatorConfig field datamodel
  ∧ ExtendedDMMFSchemaField.hasOmitFields this
      = ExtendedDMMFSchemaField._setHasOmitFields name
          (ExtendedDMMFSchemaField.linkedModel this).
Proof.
  unfold ExtendedDMMFSchemaField.new, constructedArgs.
  destruct (ExtendedDMMFSchemaField._setArgTypeImports _ _ _ _ _); simpl; [| done].
  intros [= <-]. simpl. split_and!; done.
Qed.

(** Construction yields an action when every argument it builds carries an
    input type. *)
Lemma new_action_total generatorConfig field datamodel :
  haveInputTypes (argsOf generatorConfig field datamodel) →
  ∃ this, new generatorConfig field datamodel = JS.Ok this.
Proof.
  intros H. unfold ExtendedDMMFSchemaField.new.
  edestruct _setArgTypeImports_Ok as [imports ->]; [exact H |]. by eexists.
Qed.

(** The constructor throws only where it reads the first input type of an
    argument that has none. *)
Lemma new_action_Throw generatorConfig field datamodel e :
  new generatorConfig field datamodel = JS.Throw e →
  e = JS.TypeError ∧ ¬ haveInputTypes (argsOf generatorConfig field datamodel).
Proof.
  unfold ExtendedDMMFSchemaField.new.
  change (ExtendedDMMFSchemaField._setArgs _ _ _ _) with (argsOf generatorConfig field datamodel).
  destruct (ExtendedDMMFSchemaField._setArgTypeImports _ _ _ _ _) as [i | e'] eqn:E;
    simpl; [done |].
  intros [= ->]. unfold ExtendedDMMFSchemaField._setArgTypeImports in E.
  match type of E with
  | context [JS.forEach ?f ?st ?l] => destruct (JS.forEach f st l) as [i | e'] eqn:E'
  end; simpl in E; [done |].
  injection E as ->.
  apply forEach_Throw in E' as (arg & st & Harg & Hthrow).
  destruct (ExtendedDMMFSchemaArg.hasMultipleTypes arg); [done |].
  destruct (ExtendedDMMFSchemaArg.inputTypes arg) eqn:Ei; simpl in Hthrow; [| done].
  split; [congruence |].
  intros Hall. unfold haveInputTypes in Hall. rewrite Forall_forall in Hall.
  by apply (Hall arg Harg).
Qed.

(** C2, as the code has it: an action whose name contains no verb of the
    verb list does not make construction abort.  The matched verb is
    undefined; an action is constructed whenever every argument carries an
    input type, with a model type that is the name without its first
    [undefined] and its first [OrThrow]; and the only exception that
    construction throws is the type error of an argument without input
    types. *)
Theorem no_verb_not_fatal name :
  Forall (λ verb, JS.includes name verb = false) PRISMA_ACTION_ARRAY →
  _setMatchedPrismaAction name = None
  ∧ ∀ generatorConfig field datamodel,
      DMMF.SchemaField_name field = name →
      (haveInputTypes (argsOf generatorConfig field datamodel) →
       ∃ this, new generatorConfig field datamodel = JS.Ok this)
      ∧ (∀ this, new generatorConfig field datamodel = JS.Ok this →
           ExtendedDMMFSchemaField.prismaAction this = None
           ∧ ExtendedDMMFSchemaField.modelType this
               = JS.replace (JS.replace name "undefined" "") "OrThrow" "")
      ∧ (∀ e, new generatorConfig field datamodel = JS.Throw e →
           e = JS.TypeError ∧ ¬ haveInputTypes (argsOf generatorConfig field datamodel)).
Proof.
  intros Hnone.
  assert (_setMatchedPrismaAction name = None) as Hverb
    by (by apply find_none_Forall).
  split; [done |]. intros generatorConfig field datamodel Hname. split_and!.
  - apply new_action_total.
  - intros this (_ & Hp & Hm & _)%new_action_Ok. rewrite Hname, Hverb in Hp, Hm. done.
  - apply new_action_Throw.
Qed.

(** Without a label for the verb, the name of the argument type is absent
    only when the action name has no [OrThrow]; with it, the template prints
    the label that is not there. *)
Lemma _setArgName_without_label name prismaAction modelType :
  PRISMA_ACTION_ARG_MAP !! JS.show prismaAction = None →
  _setArgName name prismaAction modelType
  = if JS.includes name "OrThrow"
    then Some (modelType +:+ "undefined" +:+ "OrThrowArgs")
    else None.
Proof. unfold ExtendedDMMFSchemaField._setArgName. by intros ->. Qed.

(** C8: for the action [findManyUser], given that [findMany] is the one
    verb of the verb list that occurs in the name and that its label is
    [FindMany], the matched verb is [findMany], the model type is [User],
    the name of the argument type is [UserFindManyArgs], and hasOmitFields
    is false whatever the linked model: the name matches no write verb. *)
Theorem findManyUser_derived :
  "findMany" ∈ PRISMA_ACTION_ARRAY →
  (∀ verb, verb ∈ PRISMA_ACTION_ARRAY →
           JS.includes "findManyUser" verb = true → verb = "findMany") →
  pascalCase <$> PRISMA_ACTION_ARG_MAP !! "findMany" = Some "FindMany" →
  _setMatchedPrismaAction "findManyUser" = Some "findMany"
  ∧ ExtendedDMMFSchemaField._setModelType "findManyUser" (Some "findMany") = "User"
  ∧ _setArgName "findManyUser" (Some "findMany") "User" = Some "UserFindManyArgs"
  ∧ RegExp.test ExtendedDMMFSchemaField.WRITE_REGEX "findManyUser" = false
  ∧ (∀ linkedModel,
       ExtendedDMMFSchemaField._setHasOmitFields "findManyUser" linkedModel = false)
  ∧ ∀ generatorConfig field datamodel,
      DMMF.SchemaField_name field = "findManyUser" →
      (haveInputTypes (argsOf generatorConfig field datamodel) →
       ∃ this, new generatorConfig field datamodel = JS.Ok this)
      ∧ ∀ this, new generatorConfig field datamodel = JS.Ok this →
          ExtendedDMMFSchemaField.prismaAction this = Some "findMany"
          ∧ ExtendedDMMFSchemaField.modelType this = "User"
          ∧ ExtendedDMMFSchemaField.argName this = Some "UserFindManyArgs"
          ∧ ExtendedDMMFSchemaField.hasOmitFields this = false.
Proof.
  intros Hin Honly Hlabel.
  assert (_setMatchedPrismaAction "findManyUser" = Some "findMany") as Hverb
    by (by apply find_only).
  assert (_setArgName "findManyUser" (Some "findMany") "User" = Some "UserFindManyArgs")
    as Harg.
  { unfold ExtendedDMMFSchemaField._setArgName. simpl.
    destruct (PRISMA_ACTION_ARG_MAP !! "findMany") as [label |]; [| done].
    injection Hlabel as ->. done. }
  split_and!; try done.
  intros generatorConfig field datamodel Hname. split; [apply new_action_total |].
  intros this (_ & Hp & Hm & Ha & _ & _ & Ho)%new_action_Ok.
  rewrite Hname, Hverb in Hp, Hm, Ha. rewrite Hname in Ho.
  rewrite Hp, Hm, Ha, Ho. done.
Qed.

(** C10: [_setArgTypeImports] and [getTypeForCustomArgsType] read the first
    input type of an argument; when every argument carries at least one
    input type, neither reaches the branch that throws, so both return a
    value, and so does the constructor. *)
Theorem first_input_type_access :
  (∀ generatorConfig name modelType linkedModel args,
     haveInputTypes args →
     ∃ imports,
       ExtendedDMMFSchemaField._setArgTypeImports generatorConfig name modelType
         linkedModel args = JS.Ok imports)
  ∧ (∀ this,
       haveInputTypes (ExtendedDMMFSchemaField.args this) →
       ∃ type, ExtendedDMMFSchemaField.getTypeForCustomArgsType this = JS.Ok type)
  ∧ (∀ generatorConfig field datamodel,
       haveInputTypes (argsOf generatorConfig field datamodel) →
       ∃ this,
         new generatorConfig field datamodel = JS.Ok this
         ∧ ∃ type, ExtendedDMMFSchemaField.getTypeForCustomArgsType this = JS.Ok type).
Proof.
  split_and!.
  - apply _setArgTypeImports_Ok.
  - apply getTypeForCustomArgsType_Ok.
  - intros generatorConfig field datamodel H.
    destruct (new_action_total _ _ _ H) as [this Hthis]. exists this. split; [done |].
    apply getTypeForCustomArgsType_Ok.
    apply new_action_Ok in Hthis as (_ & _ & _ & _ & _ & -> & _). done.
Qed.

End ActionClaims.

(** ** The linked model of two models of which one is named after the other *)

Lemma find_app_first {A} (p : A → bool) (Q : A → Prop) (pre post : list A) (a : A) :
  Forall (λ x, p x = true → Q x) pre → p a = true → Q a →
  ∃ x, List.find p (pre ++ a :: post) = Some x ∧ Q x.
Proof.
  intros Hpre Ha HQ. induction Hpre as [|y pre Hy _ IH]; simpl.
  - rewrite Ha. by exists a.
  - destruct (p y) eqn:E; [exists y; split; [done | by apply Hy] | done].
Qed.

(** C7, as the code has it: in a root graph that holds a model named
    [User] and a model named [UserProfile], and no other model whose name
    occurs in [UserProfile], the model type [User] resolves to the model
    [User], and the model type [UserProfile] resolves to whichever of the
    two models is declared first: to [UserProfile] when it is declared
    before every model named [User], and to [User] when that one is
    declared before every model named [UserProfile]. *)
Theorem linked_model_User_UserProfile (datamodel : ExtendedDMMFDatamodel) :
  Exists (λ m, ExtendedDMMFModel.name m = "User") (models datamodel) →
  Exists (λ m, ExtendedDMMFModel.name m = "UserProfile") (models datamodel) →
  Forall (λ m, JS.includes "UserProfile" (ExtendedDMMFModel.name m) = true →
               ExtendedDMMFModel.name m ∈ ["User"; "UserProfile"]) (models datamodel) →
  (∃ m, ExtendedDMMFSchemaField._setLinkedModel "User" datamodel = Some m
        ∧ ExtendedDMMFModel.name m = "User")
  ∧ ExtendedDMMFSchemaField._setLinkedModel "UserProfile" datamodel
    = firstNamed "User" "UserProfile" datamodel
  ∧ (∀ pre m post,
       models datamodel = pre ++ m :: post →
       ExtendedDMMFModel.name m = "UserProfile" →
       Forall (λ m', ExtendedDMMFModel.name m' ≠ "User") pre →
       ∃ m', ExtendedDMMFSchemaField._setLinkedModel "UserProfile" datamodel = Some m'
             ∧ ExtendedDMMFModel.name m' = "UserProfile")
  ∧ (∀ pre m post,
       models datamodel = pre ++ m :: post →
       ExtendedDMMFModel.name m = "User" →
       Forall (λ m', ExtendedDMMFModel.name m' ≠ "UserProfile") pre →
       ∃ m', ExtendedDMMFSchemaField._setLinkedModel "UserProfile" datamodel = Some m'
             ∧ ExtendedDMMFModel.name m' = "User").
Proof.
  intros Huser Hprofile Hothers.
  assert (ExtendedDMMFSchemaField._setLinkedModel "UserProfile" datamodel
          = firstNamed "User" "UserProfile" datamodel) as Hfirst.
  { apply find_ext_in. eapply Forall_impl; [exact Hothers |].
    intros m Hm. cbv beta in Hm.
    destruct (JS.includes "UserProfile" (ExtendedDMMFModel.name m)) eqn:E.
    - symmetry. apply orb_true_iff. rewrite !bool_decide_eq_true.
      specialize (Hm eq_refl). set_solver.
    - symmetry. apply orb_false_iff. rewrite !bool_decide_eq_false.
      split; intros Hn; rewrite Hn in E; done. }
  split_and!.
  - unfold ExtendedDMMFSchemaField._setLinkedModel.
    edestruct (find_is_Some (λ m, JS.includes "User" (ExtendedDMMFModel.name m)))
      as (m & Hfind & Hm).
    { eapply Exists_impl; [exact Huser |]. intros m Hn. cbv beta in *. by rewrite Hn. }
    exists m. split; [done |].
    apply find_some in Hfind as [Hin%list_elem_of_In _].
    rewrite Forall_forall in Hothers.
    pose proof (Hothers m Hin (includes_append_r _ "Profile" _ Hm)) as Hn.
    apply elem_of_cons in Hn as [Hn | Hn%list_elem_of_singleton]; [done |].
    rewrite Hn in Hm. done.
  - done.
  - intros pre m post Hmodels Hn Hpre. rewrite Hfirst. unfold firstNamed.
    rewrite Hmodels. apply find_app_first.
    + eapply Forall_impl; [exact Hpre |]. intros m' Hne Hp. cbv beta in *.
      apply orb_true_iff in Hp as [Hp | Hp]; apply bool_decide_eq_true in Hp; done.
    + rewrite Hn. done.
    + done.
  - intros pre m post Hmodels Hn Hpre. rewrite Hfirst. unfold firstNamed.
    rewrite Hmodels. apply find_app_first.
    + eapply Forall_impl; [exact Hpre |]. intros m' Hne Hp. cbv beta in *.
      apply orb_true_iff in Hp as [Hp | Hp]; apply bool_decide_eq_true in Hp; done.
    + rewrite Hn. done.
    + done.
Qed.

(** ** The sample constants at work *)

Lemma exec_from_run r s i m :
  RegExp.exec_from r i s = Some m →
  ∃ s' w, w ∈ RegExp.run r s' ∧ RegExp.matched m = RegExp.consumed w.
Proof.
  revert i. induction s as [|c s IH]; intros i; simpl.
  - destruct (RegExp.run r "") as [|w ws] eqn:E; [done |].
    intros [= <-]. exists "", w. rewrite E. split; [by left | done].
  - destruct (RegExp.run r (String c s)) as [|w ws] eqn:E; [by apply IH |].
    intros [= <-]. exists (String c s), w. rewrite E. split; [by left | done].
Qed.

Lemma run_Seq_Lit t r s w :
  w ∈ RegExp.run (RegExp.Seq (RegExp.Lit t) r) s → ∃ c, RegExp.consumed w = t +:+ c.
Proof.
  simpl. rewrite list_elem_of_bind. intros (w1 & Hw & Hw1).
  apply list_elem_of_bind in Hw as (w2 & Hw & Hw2).
  apply list_elem_of_singleton in Hw as ->. simpl.
  destruct (JS.startsWith s t); [| by apply elem_of_nil in Hw1].
  apply list_elem_of_singleton in Hw1 as ->. by eexists.
Qed.

(** Every match of the sample pattern begins with the character [@]. *)
Lemma sample_marker s importStatements :
  RegExp.match_ s Sample.IMPORT_STATEMENT_REGEX = Some importStatements →
  JS.startsWith (RegExp.matched importStatements) "@" = true.
Proof.
  intros (s' & w & Hw & ->)%exec_from_run.
  apply run_Seq_Lit in Hw as [c ->]. done.
Qed.

Example sampleUser_constructed : Sample.newModel Sample.userModel = JS.Ok Sample.sampleUser.
Proof. vm_compute. reflexivity. Qed.

(** The example of the specification: the statement is extracted and the
    text before the directive is what remains. *)
Example sampleUser_directive :
  ExtendedDMMFModel._extractZodDirectives Sample.IMPORT_STATEMENT_REGEX
    (Some ("some text " +:+ Sample.directive "import { x } from 'y'")) ""
  = JS.Ok (Some {| ExtendedDMMFModel.statements := ["import { x } from 'y'"];
                   ExtendedDMMFModel.directives_clearedDocumentation := "some text " |}).
Proof. vm_compute. reflexivity. Qed.

(** The two enum fields of [User] share the enum [Role]: one import. *)
Example sampleUser_imports :
  ExtendedDMMFModel.imports Sample.sampleUser
  = ["import { x } from 'y'"; NULLABLE_JSON_IMPORT;
     "import { RoleSchema } from '../enums/RoleSchema'"].
Proof. vm_compute. reflexivity. Qed.

Lemma fields_partition_witness :
  ExtendedDMMFModel.scalarFields Sample.sampleUser ++ ExtendedDMMFModel.relationFields Sample.sampleUser
    ++ ExtendedDMMFModel.enumFields Sample.sampleUser ≡ₚ ExtendedDMMFModel.fields Sample.sampleUser.
Proof.
  apply (fields_partition Sample.IMPORT_STATEMENT_REGEX Sample.newExtendedDMMFField
           Sample.config Sample.userModel Sample.sampleUser).
  - vm_compute. reflexivity.
  - apply (bool_decide_unpack _). vm_compute. exact I.
Defined.

Lemma imports_first_seen_witness :
  ∃ z,
    ExtendedDMMFModel._extractZodDirectives Sample.IMPORT_STATEMENT_REGEX
      (ExtendedDMMFModel.documentation Sample.sampleUser)
      (ExtendedDMMFModel.errorLocation Sample.sampleUser) = JS.Ok z
    ∧ ExtendedDMMFModel.imports Sample.sampleUser
      = firstSeen [] (directiveStatements z
                        ++ automaticStatements Sample.config
                             (ExtendedDMMFModel.fields Sample.sampleUser)).
Proof.
  destruct (imports_first_seen Sample.IMPORT_STATEMENT_REGEX Sample.newExtendedDMMFField
              Sample.config Sample.userModel Sample.sampleUser) as (z & Hz & _ & Hi & _).
  - vm_compute. reflexivity.
  - exists z. split; [exact Hz | exact Hi].
Defined.

Lemma directive_error_witness :
  ∃ message,
    Sample.newModel Sample.customModel = JS.Throw (JS.Error message)
    ∧ JS.includes message "Post" = true
    ∧ ∀ m, Sample.newModel Sample.customModel ≠ JS.Ok m.
Proof.
  edestruct (directive_error Sample.IMPORT_STATEMENT_REGEX Sample.newExtendedDMMFField
               Sample.config Sample.customModel) as [Hthrow _].
  - reflexivity.
  - discriminate.
  - vm_compute. reflexivity.
  - apply Hthrow. vm_compute. discriminate.
Defined.

(** C5, the claim as stated fails: the documentation holds an import
    directive and, after it, a marker of the type [custom]; the model is
    constructed, and the marker stays in the cleared documentation. *)
Lemma later_marker_not_checked :
  DMMF.documentation Sample.mixedModel
  = Some (Sample.directive "a" +:+ " and " +:+ Sample.customMarker "b")
  ∧ (∃ marker,
       RegExp.match_ (Sample.customMarker "b") Sample.IMPORT_STATEMENT_REGEX = Some marker
       ∧ RegExp.matched marker = Sample.customMarker "b"
       ∧ RegExp.group marker "type" = Some "custom")
  ∧ ∃ m,
      Sample.newModel Sample.mixedModel = JS.Ok m
      ∧ ExtendedDMMFModel.imports m = ["a"]
      ∧ ExtendedDMMFModel.clearedDocumentation m
        = Some (" and " +:+ Sample.customMarker "b").
Proof.
  split_and!; [reflexivity | |]; eexists; split_and!; vm_compute; reflexivity.
Qed.

Example customModel_message :
  Sample.newModel Sample.customModel
  = JS.Throw (JS.Error "[@zod generator error]: 'custom' is not a valid validator key. [Error Location]: Model: 'Post'.").
Proof. vm_compute. reflexivity. Qed.

Lemma extraction_on_cleared_witness :
  ExtendedDMMFModel._extractZodDirectives Sample.IMPORT_STATEMENT_REGEX
    (Some "some text ") "" = JS.Ok None.
Proof.
  refine (proj2 (extraction_on_cleared Sample.IMPORT_STATEMENT_REGEX
                   ("some text " +:+ Sample.directive "import { x } from 'y'") ""
                   {| ExtendedDMMFModel.statements := ["import { x } from 'y'"];
                      ExtendedDMMFModel.directives_clearedDocumentation := "some text " |}
                   sample_marker _) _).
  - vm_compute. reflexivity.
  - vm_compute. reflexivity.
Defined.

(** C6, the claim as stated fails: of two directives the first is removed
    and the second is found when extraction runs again. *)
Lemma extraction_not_idempotent :
  ∃ z z',
    ExtendedDMMFModel._extractZodDirectives Sample.IMPORT_STATEMENT_REGEX
      (Some (Sample.directive "a" +:+ " and " +:+ Sample.directive "b")) "" = JS.Ok (Some z)
    ∧ ExtendedDMMFModel.statements z = ["a"]
    ∧ ExtendedDMMFModel.directives_clearedDocumentation z = " and " +:+ Sample.directive "b"
    ∧ ExtendedDMMFModel._extractZodDirectives Sample.IMPORT_STATEMENT_REGEX
        (Some (ExtendedDMMFModel.directives_clearedDocumentation z)) "" = JS.Ok (Some z')
    ∧ ExtendedDMMFModel.statements z' = ["b"].
Proof. do 2 eexists. split_and!; vm_compute; reflexivity. Qed.

(** C7, the claim as stated fails: with [User] declared before
    [UserProfile], the action over [UserProfile] is linked to [User]. *)
Lemma UserProfile_linked_to_User :
  ExtendedDMMFModel.name <$> models Sample.userFirst = ["User"; "UserProfile"]
  ∧ ∃ this,
      Sample.newAction (Sample.action "findManyUserProfile" []) Sample.userFirst = JS.Ok this
      ∧ ExtendedDMMFSchemaField.modelType this = "UserProfile"
      ∧ ExtendedDMMFModel.name <$> ExtendedDMMFSchemaField.linkedModel this = Some "User".
Proof. split; [| eexists; split_and!]; vm_compute; reflexivity. Qed.

Lemma linked_model_User_UserProfile_witness :
  ExtendedDMMFSchemaField._setLinkedModel "UserProfile" Sample.userFirst
  = firstNamed "User" "UserProfile" Sample.userFirst.
Proof.
  apply (linked_model_User_UserProfile Sample.userFirst).
  - apply (bool_decide_unpack _). vm_compute. exact I.
  - apply (bool_decide_unpack _). vm_compute. exact I.
  - apply (bool_decide_unpack _). vm_compute. exact I.
Defined.

(** With [UserProfile] declared first, both model types resolve to their
    own model. *)
Example profileFirst_linked :
  ExtendedDMMFModel.name
    <$> ExtendedDMMFSchemaField._setLinkedModel "UserProfile" Sample.profileFirst
  = Some "UserProfile"
  ∧ ExtendedDMMFModel.name
      <$> ExtendedDMMFSchemaField._setLinkedModel "User" Sample.profileFirst
    = Some "User".
Proof. split; vm_compute; reflexivity. Qed.

(** C2, the claim as stated fails: the name [fooBar] holds no verb of the
    list, and the action is constructed, with an undefined verb. *)
Lemma no_verb_constructed :
  Forall (λ verb, JS.includes "fooBar" verb = false) Sample.PRISMA_ACTION_ARRAY
  ∧ ∃ this,
      Sample.newAction (Sample.action "fooBar" []) Sample.userFirst = JS.Ok this
      ∧ ExtendedDMMFSchemaField.prismaAction this = None
      ∧ ExtendedDMMFSchemaField.modelType this = "fooBar"
      ∧ ExtendedDMMFSchemaField.argName this = None.
Proof.
  split; [apply (bool_decide_unpack _); vm_compute; exact I |].
  eexists. split_and!; vm_compute; reflexivity.
Qed.

Lemma no_verb_not_fatal_witness :
  ExtendedDMMFSchemaField._setMatchedPrismaAction Sample.PRISMA_ACTION_ARRAY "fooBar" = None.
Proof.
  apply (no_verb_not_fatal Sample.PRISMA_ACTION_ARRAY Sample.PRISMA_ACTION_ARG_MAP
           Sample.newExtendedDMMFSchemaArg "fooBar").
  apply (bool_decide_unpack _). vm_compute. exact I.
Defined.

Lemma findManyUser_derived_witness :
  ExtendedDMMFSchemaField._setMatchedPrismaAction Sample.PRISMA_ACTION_ARRAY "findManyUser"
  = Some "findMany".
Proof.
  apply (findManyUser_derived Sample.PRISMA_ACTION_ARRAY Sample.PRISMA_ACTION_ARG_MAP
           Sample.newExtendedDMMFSchemaArg).
  - apply (bool_decide_unpack _). vm_compute. exact I.
  - apply (proj1 (Forall_forall
                    (λ verb, JS.includes "findManyUser" verb = true → verb = "findMany") _)).
    apply (bool_decide_unpack _). vm_compute. exact I.
  - vm_compute. reflexivity.
Defined.

(** The action [findManyUser] of the specification, constructed. *)
Example findManyUser_constructed :
  ∃ this,
    Sample.newAction
      (Sample.action "findManyUser"
         [Sample.arg "where" false [Sample.inputType "UserWhereInput" false]])
      Sample.userFirst = JS.Ok this
    ∧ ExtendedDMMFSchemaField.prismaAction this = Some "findMany"
    ∧ ExtendedDMMFSchemaField.modelType this = "User"
    ∧ ExtendedDMMFSchemaField.argName this = Some "UserFindManyArgs"
    ∧ ExtendedDMMFSchemaField.hasOmitFields this = false
    ∧ ExtendedDMMFSchemaField.argTypeImports this
      = ["import { UserIncludeSchema } from '../inputTypeSchemas/UserIncludeSchema'";
         "import { UserWhereInputSchema } from '../inputTypeSchemas/UserWhereInputSchema'"].
Proof. eexists. split_and!; vm_compute; reflexivity. Qed.

Lemma first_input_type_access_witness :
  ∃ imports,
    ExtendedDMMFSchemaField._setArgTypeImports Sample.config "createManyUser" "ManyUser"
      (Some Sample.sampleUser) Sample.createManyArgs = JS.Ok imports.
Proof.
  apply (proj1 (first_input_type_access Sample.PRISMA_ACTION_ARRAY
                  Sample.PRISMA_ACTION_ARG_MAP Sample.newExtendedDMMFSchemaArg)).
  apply (bool_decide_unpack _). vm_compute. exact I.
Defined.

(** An argument of one type without input types makes the constructor
    throw: the precondition of the access is needed. *)
Example first_input_type_missing :
  Sample.newAction (Sample.action "findManyUser" [Sample.arg "where" false []])
    Sample.userFirst = JS.Throw JS.TypeError.
Proof. vm_compute. reflexivity. Qed.

(** C3, where the code departs from the claim: the name [pingOrThrow]
    holds no verb, no label is registered for the verb that was looked up,
    and yet the name of the argument type is not absent: the template
    prints the missing label as [undefined]. *)
Theorem argName_OrThrow_without_label :
  Sample.PRISMA_ACTION_ARG_MAP
    !! JS.show (ExtendedDMMFSchemaField._setMatchedPrismaAction
                  Sample.PRISMA_ACTION_ARRAY "pingOrThrow") = None
  ∧ ∃ this,
      Sample.newAction (Sample.action "pingOrThrow" []) Sample.userFirst = JS.Ok this
      ∧ ExtendedDMMFSchemaField.modelType this = "ping"
      ∧ ExtendedDMMFSchemaField.argName this = Some "pingundefinedOrThrowArgs".
Proof. split; [| eexists; split_and!]; vm_compute; reflexivity. Qed.

(** Without [OrThrow] in the name the same lookup leaves the name of the
    argument type absent. *)
Example argName_without_label_absent :
  ∃ this,
    Sample.newAction (Sample.action "ping" []) Sample.userFirst = JS.Ok this
    ∧ ExtendedDMMFSchemaField.argName this = None.
Proof. eexists. split; vm_compute; reflexivity. Qed.

(** C9, where the code departs from the claim: the argument [data] of
    [createManyUser] accepts an input type and the list of that input type;
    the field list joins the two types and leaves the array marker of the
    second out. *)
Theorem multiple_types_without_array_marker :
  ∃ this,
    Sample.newAction (Sample.action "createManyUser" Sample.createManyRawArgs)
      Sample.userFirst = JS.Ok this
    ∧ ExtendedDMMFSchemaField.hasOmitFields this = true
    ∧ ExtendedDMMFSchemaField.createCustomOmitFieldArgType this = true
    ∧ ExtendedDMMFSchemaField.args this = Sample.createManyArgs
    ∧ ExtendedDMMFSchemaField.getTypeForCustomArgsType this
      = JS.Ok "data: z.infer<typeof UserCreateManyInputSchema> | z.infer<typeof UserCreateManyInputSchema>".
Proof. eexists. split_and!; vm_compute; reflexivity. Qed.

(** The same argument with the list type alone has the marker. *)
Example single_type_with_array_marker :
  ExtendedDMMFSchemaField.argTypeOf
    (Sample.newExtendedDMMFSchemaArg Sample.config
       (Sample.arg "data" true [Sample.inputType "UserCreateManyInput" true]) None)
  = JS.Ok "z.infer<typeof UserCreateManyInputSchema> []".
Proof. vm_compute. reflexivity. Qed.

(** ** Patterns of alternative literals

    A pattern that is an alternation of literals tests for the presence of
    one of them. *)
Section AlternativeLiterals.

Lemma exec_from_Lit t i s :
  (match RegExp.exec_from (RegExp.Lit t) i s with Some _ => true | None => false end)
  = JS.includes s t.
Proof.
  revert i. induction s as [|c s IH]; intros i; rewrite includes_eq; simpl.
  - by destruct (JS.startsWith "" t).
  - destruct (JS.startsWith (String c s) t); [done | apply IH].
Qed.

Lemma exec_from_Alt r1 r2 i j k s :
  (match RegExp.exec_from (RegExp.Alt r1 r2) i s with Some _ => true | None => false end)
  = (match RegExp.exec_from r1 j s with Some _ => true | None => false end)
    || (match RegExp.exec_from r2 k s with Some _ => true | None => false end).
Proof.
  revert i j k. induction s as [|c s IH]; intros i j k; simpl.
  - by destruct (RegExp.run r1 ""), (RegExp.run r2 "").
  - destruct (RegExp.run r1 (String c s)), (RegExp.run r2 (String c s)); simpl;
      rewrite ?orb_true_r; done.
Qed.

Lemma test_anyOf first others s :
  RegExp.test (RegExp.anyOf first others) s = existsb (JS.includes s) (first :: others).
Proof.
  unfold RegExp.test, RegExp.match_. generalize 0.
  revert first. induction others as [|o others IH]; intros first i; simpl.
  - by rewrite exec_from_Lit, orb_false_r.
  - rewrite (exec_from_Alt _ _ i i i), exec_from_Lit. f_equal. apply IH.
Qed.

End AlternativeLiterals.

(** ** Further properties of the action *)

Lemma existsb_elem_of {A} (p : A → bool) (l : list A) :
  existsb p l = true ↔ ∃ x, x ∈ l ∧ p x = true.
Proof.
  rewrite existsb_exists. split; intros (x & Hx & Hp); exists x;
    (split; [by apply list_elem_of_In | done]).
Qed.

Lemma existsb_false_Forall {A} (p : A → bool) (l : list A) :
  existsb p l = false ↔ Forall (λ x, p x = false) l.
Proof.
  induction l as [|x l IH]; simpl; [by split |].
  rewrite orb_false_iff, IH, Forall_cons. done.
Qed.

Lemma find_first {A} (p : A → bool) (l : list A) (x : A) :
  List.find p l = Some x →
  ∃ pre post, l = pre ++ x :: post ∧ p x = true ∧ Forall (λ y, p y = false) pre.
Proof.
  induction l as [|y l IH]; simpl; [done |].
  destruct (p y) eqn:E.
  - intros [= ->]. by exists [], l.
  - intros (pre & post & -> & Hx & Hpre)%IH.
    exists (y :: pre), post. split_and!; [done | done | by constructor].
Qed.

(** X8: a custom omit type is created exactly when the action has omit fields
    and the union of the names to omit is not empty; and that union is empty
    exactly when no argument bears a name with [create], [update],
    [upsert], [delete] or [data] in it. *)
Theorem custom_omit_type_iff_union (this : ExtendedDMMFSchemaField.t) :
  (ExtendedDMMFSchemaField.createCustomOmitFieldArgType this = true
   ↔ ExtendedDMMFSchemaField.hasOmitFields this = true
     ∧ ExtendedDMMFSchemaField.getOmitUnionForCustomArgType this ≠ "")
  ∧ (ExtendedDMMFSchemaField.getOmitUnionForCustomArgType this = ""
     ↔ Forall (λ arg, Forall (λ word, JS.includes (ExtendedDMMFSchemaArg.name arg) word = false)
                        ["create"; "update"; "upsert"; "delete"; "data"])
         (ExtendedDMMFSchemaField.args this)).
Proof.
  assert (ExtendedDMMFSchemaField.getOmitUnionForCustomArgType this = ""
          ↔ existsb (λ arg, RegExp.test ExtendedDMMFSchemaField.WRITE_DATA_REGEX
                              (ExtendedDMMFSchemaArg.name arg))
              (ExtendedDMMFSchemaField.args this) = false) as Hunion.
  { unfold ExtendedDMMFSchemaField.getOmitUnionForCustomArgType.
    induction (ExtendedDMMFSchemaField.args this) as [|arg args IH]; simpl; [done |].
    destruct (RegExp.test _ (ExtendedDMMFSchemaArg.name arg)); simpl; [| done].
    split; [| done]. intros H. exfalso.
    destruct (map _ (List.filter _ args)); simpl in H; unfold JS.dq in H; simpl in H; done. }
  split.
  - unfold ExtendedDMMFSchemaField.createCustomOmitFieldArgType.
    rewrite andb_true_iff, Hunion, not_false_iff_true. done.
  - rewrite Hunion, existsb_false_Forall. apply Forall_proper; [| done].
    intros arg. unfold ExtendedDMMFSchemaField.WRITE_DATA_REGEX.
    rewrite test_anyOf, existsb_false_Forall. done.
Qed.

Lemma foldl_push_types {A} (f : A → string) (acc : list string) (l : list A) :
  foldl (λ imports x, ExtendedDMMFSchemaField.push imports (f x)) acc l = acc ++ map f l.
Proof.
  revert acc. induction l as [|x l IH]; intros acc; simpl; [by rewrite app_nil_r |].
  unfold ExtendedDMMFSchemaField.push at 2. by rewrite IH, <- app_assoc.
Qed.

(** The loop over the arguments either throws at the first argument whose
    first input type is read and missing, or appends the imports of all
    arguments. *)
Lemma forEach_argImports generatorConfig (args : list ExtendedDMMFSchemaArg.t)
    (imports : list string) :
  JS.forEach (λ imports arg,
      if ExtendedDMMFSchemaArg.hasMultipleTypes arg
      then JS.Ok (foldl (λ imports inputType,
                           ExtendedDMMFSchemaField.push imports
                             (ExtendedDMMFSchemaField.schemaImport generatorConfig
                                (DMMF.type inputType)))
                    imports (ExtendedDMMFSchemaArg.inputTypes arg))
      else
        match ExtendedDMMFSchemaArg.inputTypes arg !! 0 with
        | None => JS.Throw JS.TypeError
        | Some inputType0 =>
            JS.Ok (ExtendedDMMFSchemaField.push imports
                     (ExtendedDMMFSchemaField.schemaImport generatorConfig
                        (DMMF.type inputType0)))
        end) imports args
  = if existsb lacksFirstType args then JS.Throw JS.TypeError
    else JS.Ok (imports ++ argImports generatorConfig args).
Proof.
  revert imports. induction args as [|arg args IH]; intros imports; simpl.
  { by rewrite app_nil_r. }
  unfold lacksFirstType at 1, importedTypes.
  destruct (ExtendedDMMFSchemaArg.hasMultipleTypes arg); simpl.
  - rewrite IH. destruct (existsb lacksFirstType args); [done |].
    rewrite (foldl_push_types
               (λ t, ExtendedDMMFSchemaField.schemaImport generatorConfig (DMMF.type t))).
    by rewrite <- app_assoc.
  - destruct (ExtendedDMMFSchemaArg.inputTypes arg) as [|t ts]; simpl; [done |].
    rewrite IH. destruct (existsb lacksFirstType args); [done |].
    unfold ExtendedDMMFSchemaField.push. by rewrite <- app_assoc.
Qed.

(** The import of a schema names the schema: the end of the type name and
    [Schema]. *)
Lemma schemaImport_suffix generatorConfig prefix suffix :
  JS.includes (ExtendedDMMFSchemaField.schemaImport generatorConfig (prefix +:+ suffix))
    (suffix +:+ "Schema") = true.
Proof.
  unfold ExtendedDMMFSchemaField.schemaImport.
  match goal with
  | |- JS.includes (_ +:+ _ +:+ _ +:+ ?rest) _ = true =>
      assert ("import { " +:+ (prefix +:+ suffix) +:+ "Schema } from '../" +:+ rest
              = ("import { " +:+ prefix) +:+ (suffix +:+ "Schema") +:+ " } from '../" +:+ rest)
        as ->
  end.
  { rewrite !append_assoc. simpl. reflexivity. }
  apply includes_intro.
Qed.

(** What [_setArgTypeImports] returns, in full. *)
Lemma _setArgTypeImports_eq generatorConfig name modelType linkedModel args :
  ExtendedDMMFSchemaField._setArgTypeImports generatorConfig name modelType linkedModel args
  = if existsb lacksFirstType args then JS.Throw JS.TypeError
    else JS.Ok (firstSeen []
                  (List.filter keptImport
                     (when (ExtendedDMMFSchemaField.includeInSelectAndIncludeArgs_of name
                            && default false
                                 (ExtendedDMMFModel.hasRelationFields <$> linkedModel))
                        (includeImport generatorConfig modelType)
                      ++ argImports generatorConfig args))).
Proof.
  unfold ExtendedDMMFSchemaField._setArgTypeImports.
  rewrite forEach_argImports.
  destruct (existsb lacksFirstType args); simpl; [done |].
  rewrite newSet_firstSeen. unfold when, includeImport, ExtendedDMMFSchemaField.push.
  by destruct (_ && _).
Qed.

Lemma replace_prefix t s : JS.replace (t +:+ s) t "" = s.
Proof.
  destruct (t +:+ s) eqn:E; simpl; rewrite <- E, startsWith_append, slice_append; done.
Qed.

(** [OrThrow] does not overlap itself: after a text that does not start
    with it, it does not start before the end of the text. *)
Lemma OrThrow_border m :
  m ≠ "" → JS.startsWith m "OrThrow" = false →
  JS.startsWith (m +:+ "OrThrow") "OrThrow" = false.
Proof.
  intros Hne H.
  do 7 (destruct m as [|? m]; [first [done | vm_compute; reflexivity] |];
        simpl in H |- *; case_bool_decide; [subst; simpl in H |- * | done]).
  done.
Qed.

Lemma replace_OrThrow_suffix model :
  JS.includes model "OrThrow" = false → JS.replace (model +:+ "OrThrow") "OrThrow" "" = model.
Proof.
  induction model as [|c model IH]; [done |].
  rewrite includes_eq. destruct (JS.startsWith (String c model) "OrThrow") eqn:E; [done |].
  intros H. change (String c model +:+ "OrThrow") with (String c (model +:+ "OrThrow")).
  cbn [JS.replace].
  change (String c (model +:+ "OrThrow")) with (String c model +:+ "OrThrow").
  rewrite OrThrow_border by done. f_equal. by apply IH.
Qed.

Section ActionProperties.

Variable PRISMA_ACTION_ARRAY : list string.
Variable PRISMA_ACTION_ARG_MAP : gmap string FormattedNames.
Variable newExtendedDMMFSchemaArg :
  GeneratorConfig → DMMF.SchemaArg → option ExtendedDMMFField.t → ExtendedDMMFSchemaArg.t.

#[local] Abbreviation new :=
  (ExtendedDMMFSchemaField.new PRISMA_ACTION_ARRAY PRISMA_ACTION_ARG_MAP
     newExtendedDMMFSchemaArg).
#[local] Abbreviation argsOf :=
  (constructedArgs PRISMA_ACTION_ARRAY newExtendedDMMFSchemaArg).

(** The constructor, in full: it throws a type error when one of the
    arguments it builds is of one type and has no input type, and otherwise
    returns the action with its import set. *)
Lemma new_action_eq generatorConfig field datamodel :
  (existsb lacksFirstType (argsOf generatorConfig field datamodel) = true →
   new generatorConfig field datamodel = JS.Throw JS.TypeError)
  ∧ (existsb lacksFirstType (argsOf generatorConfig field datamodel) = false →
     ∃ this,
       new generatorConfig field datamodel = JS.Ok this
       ∧ ExtendedDMMFSchemaField.argTypeImports this
         = firstSeen []
             (List.filter keptImport
                (when (ExtendedDMMFSchemaField.includeInSelectAndIncludeArgs this
                       && default false (ExtendedDMMFModel.hasRelationFields
                                           <$> ExtendedDMMFSchemaField.linkedModel this))
                   (includeImport generatorConfig (ExtendedDMMFSchemaField.modelType this))
                 ++ argImports generatorConfig (ExtendedDMMFSchemaField.args this)))).
Proof.
  unfold ExtendedDMMFSchemaField.new.
  change (ExtendedDMMFSchemaField._setArgs _ _ _ _) with (argsOf generatorConfig field datamodel).
  rewrite _setArgTypeImports_eq.
  split; intros ->; simpl; [done |]. eexists. split; reflexivity.
Qed.

(** X1: the constructor of an action throws exactly when one of the arguments
    it builds is of one type and has no input type, and then it throws a
    type error; otherwise it returns an action. *)
Theorem action_construction_throws_iff generatorConfig field datamodel :
  (Exists (λ arg, ExtendedDMMFSchemaArg.hasMultipleTypes arg = false
                  ∧ ExtendedDMMFSchemaArg.inputTypes arg = [])
     (argsOf generatorConfig field datamodel)
   ↔ new generatorConfig field datamodel = JS.Throw JS.TypeError)
  ∧ (Forall (λ arg, ExtendedDMMFSchemaArg.hasMultipleTypes arg = true
                    ∨ ExtendedDMMFSchemaArg.inputTypes arg ≠ [])
       (argsOf generatorConfig field datamodel)
     ↔ ∃ this, new generatorConfig field datamodel = JS.Ok this).
Proof.
  destruct (new_action_eq generatorConfig field datamodel) as [Hthrow Hok].
  destruct (existsb lacksFirstType _) eqn:E.
  - rewrite (Hthrow eq_refl). clear Hthrow Hok.
    apply existsb_elem_of in E as (arg & Harg & Hl).
    apply andb_true_iff in Hl as [Hm%negb_true_iff He%bool_decide_eq_true].
    split; split; try done.
    + intros _. apply Exists_exists. by exists arg.
    + intros Hall. rewrite Forall_forall in Hall.
      destruct (Hall arg Harg); congruence.
    + by intros [? ?].
  - destruct (Hok eq_refl) as (this & -> & _). clear Hthrow Hok.
    apply existsb_false_Forall in E.
    assert (Forall (λ arg, ExtendedDMMFSchemaArg.hasMultipleTypes arg = true
                           ∨ ExtendedDMMFSchemaArg.inputTypes arg ≠ [])
              (argsOf generatorConfig field datamodel)) as Hall.
    { eapply Forall_impl; [exact E |]. intros arg Hl. cbv beta in Hl.
      apply andb_false_iff in Hl as [Hm%negb_false_iff | He%bool_decide_eq_false]; auto. }
    split; split; try done.
    + intros (arg & Harg & Hm & He)%Exists_exists.
      rewrite Forall_forall in Hall. destruct (Hall arg Harg); congruence.
    + intros _. by exists this.
Qed.

(** X2: the import set of a constructed action: the include schema of the
    model type when the name has none of [createMany], [updateMany],
    [deleteMany] and the linked model has relation fields, then per argument
    the schema of each imported input type; of these, the statements without
    [IntSchema] and [BooleanSchema] in them, each once, where first seen. *)
Theorem argTypeImports_content generatorConfig field datamodel this :
  new generatorConfig field datamodel = JS.Ok this →
  ExtendedDMMFSchemaField.argTypeImports this
  = firstSeen []
      (List.filter keptImport
         (when (forallb (λ many, negb (JS.includes (ExtendedDMMFSchemaField.name this) many))
                  ["createMany"; "updateMany"; "deleteMany"]
                && default false (ExtendedDMMFModel.hasRelationFields
                                    <$> ExtendedDMMFSchemaField.linkedModel this))
            (includeImport generatorConfig (ExtendedDMMFSchemaField.modelType this))
          ++ argImports generatorConfig (ExtendedDMMFSchemaField.args this))).
Proof.
  destruct (new_action_eq generatorConfig field datamodel) as [Hthrow Hok].
  destruct (existsb lacksFirstType _); [by rewrite Hthrow |].
  destruct (Hok eq_refl) as (this' & -> & Hi). intros [= <-]. rewrite Hi.
  unfold ExtendedDMMFSchemaField.includeInSelectAndIncludeArgs,
    ExtendedDMMFSchemaField.includeInSelectAndIncludeArgs_of,
    ExtendedDMMFSchemaField.MANY_REGEX.
  rewrite test_anyOf. cbn [existsb forallb].
  by destruct (JS.includes _ "createMany"), (JS.includes _ "updateMany"),
       (JS.includes _ "deleteMany").
Qed.

(** X3: no statement of the import set of a constructed action has [IntSchema]
    or [BooleanSchema] in it, and none occurs twice; so the schema of an
    input type whose name ends in [Int] or in [Boolean], as [BigInt], is
    never imported. *)
Theorem argTypeImports_never_Int_Boolean generatorConfig field datamodel this :
  new generatorConfig field datamodel = JS.Ok this →
  NoDup (ExtendedDMMFSchemaField.argTypeImports this)
  ∧ (∀ imp, imp ∈ ExtendedDMMFSchemaField.argTypeImports this →
            JS.includes imp "IntSchema" = false ∧ JS.includes imp "BooleanSchema" = false)
  ∧ (∀ prefix,
       (ExtendedDMMFSchemaField.schemaImport generatorConfig (prefix +:+ "Int")
          ∉ ExtendedDMMFSchemaField.argTypeImports this)
       ∧ (ExtendedDMMFSchemaField.schemaImport generatorConfig (prefix +:+ "Boolean")
            ∉ ExtendedDMMFSchemaField.argTypeImports this)).
Proof.
  destruct (new_action_eq generatorConfig field datamodel) as [Hthrow Hok].
  destruct (existsb lacksFirstType _); [by rewrite Hthrow |].
  destruct (Hok eq_refl) as (this' & -> & Hi). intros [= <-].
  assert (∀ imp, imp ∈ ExtendedDMMFSchemaField.argTypeImports this' →
                 JS.includes imp "IntSchema" = false
                 ∧ JS.includes imp "BooleanSchema" = false) as Hkept.
  { intros imp. rewrite Hi, firstSeen_elem_of, list_elem_of_In, filter_In.
    unfold keptImport. rewrite andb_true_iff, !negb_true_iff. tauto. }
  split_and!; [rewrite Hi; apply firstSeen_NoDup | done |].
  intros prefix. split; intros [H1 H2]%Hkept.
  - by rewrite (schemaImport_suffix _ prefix "Int") in H1.
  - by rewrite (schemaImport_suffix _ prefix "Boolean") in H2.
Qed.

Lemma find_None_iff {A} (p : A → bool) (l : list A) :
  List.find p l = None ↔ Forall (λ x, p x = false) l.
Proof.
  induction l as [|x l IH]; simpl; [by split |].
  rewrite Forall_cons. destruct (p x); [split; [done | by intros [? _]] |].
  rewrite IH. tauto.
Qed.

(** X4: a constructed action has omit fields exactly when its name has
    [create], [upsert], [update] or [delete] in it and it is linked to a
    model that has omit fields; without a linked model it has none. *)
Theorem action_hasOmitFields_iff generatorConfig field datamodel this :
  new generatorConfig field datamodel = JS.Ok this →
  (ExtendedDMMFSchemaField.hasOmitFields this = true
   ↔ (∃ verb, verb ∈ ["create"; "upsert"; "update"; "delete"]
              ∧ JS.includes (ExtendedDMMFSchemaField.name this) verb = true)
     ∧ ∃ m, ExtendedDMMFSchemaField.linkedModel this = Some m
            ∧ ExtendedDMMFModel.hasOmitFields m = true)
  ∧ (ExtendedDMMFSchemaField.linkedModel this = None →
     ExtendedDMMFSchemaField.hasOmitFields this = false).
Proof.
  intros (Hn & _ & _ & _ & _ & _ & Ho)%new_action_Ok. rewrite Ho, Hn.
  unfold ExtendedDMMFSchemaField._setHasOmitFields, ExtendedDMMFSchemaField.WRITE_REGEX.
  rewrite test_anyOf. split.
  - destruct (existsb _ _) eqn:E.
    + apply existsb_elem_of in E.
      destruct (ExtendedDMMFSchemaField.linkedModel this) as [m |]; simpl.
      * split; [intros Hm; split; [done | by exists m] | by intros (_ & m' & [= <-] & Hm)].
      * split; [done | by intros (_ & m' & ? & _)].
    + split; [done |]. intros (Hverb & _). apply existsb_elem_of in Hverb. congruence.
  - intros ->. by destruct (existsb (JS.includes _) _).
Qed.

(** X5: the verb and the linked model of a constructed action are first
    matches: the verb is the first of the verb list that occurs in the name
    and is undefined exactly when none does; the linked model is the first
    model of the graph whose name occurs in the model type and is undefined
    exactly when none does. *)
Theorem first_match_wins generatorConfig field datamodel this :
  new generatorConfig field datamodel = JS.Ok this →
  (∀ verb, ExtendedDMMFSchemaField.prismaAction this = Some verb →
     ∃ pre post,
       PRISMA_ACTION_ARRAY = pre ++ verb :: post
       ∧ JS.includes (ExtendedDMMFSchemaField.name this) verb = true
       ∧ Forall (λ v, JS.includes (ExtendedDMMFSchemaField.name this) v = false) pre)
  ∧ (ExtendedDMMFSchemaField.prismaAction this = None
     ↔ Forall (λ v, JS.includes (ExtendedDMMFSchemaField.name this) v = false)
         PRISMA_ACTION_ARRAY)
  ∧ (∀ m, ExtendedDMMFSchemaField.linkedModel this = Some m →
       ∃ pre post,
         models datamodel = pre ++ m :: post
         ∧ JS.includes (ExtendedDMMFSchemaField.modelType this) (ExtendedDMMFModel.name m) = true
         ∧ Forall (λ m', JS.includes (ExtendedDMMFSchemaField.modelType this)
                           (ExtendedDMMFModel.name m') = false) pre)
  ∧ (ExtendedDMMFSchemaField.linkedModel this = None
     ↔ Forall (λ m', JS.includes (ExtendedDMMFSchemaField.modelType this)
                       (ExtendedDMMFModel.name m') = false) (models datamodel)).
Proof.
  intros (Hn & Hp & Hm & _ & Hl & _)%new_action_Ok.
  rewrite Hl, <- Hm, Hp, Hn.
  unfold ExtendedDMMFSchemaField._setMatchedPrismaAction,
    ExtendedDMMFSchemaField._setLinkedModel.
  split_and!.
  - intros verb H. by apply find_first in H.
  - apply find_None_iff.
  - intros m H. by apply find_first in H.
  - apply find_None_iff.
Qed.

(** X6: the model type of an action named by a verb followed by a model name,
    with or without [OrThrow] after it, is the model name, when the verb is
    the one matched and the model name has no [OrThrow] in it. *)
Theorem modelType_of_verb_and_model generatorConfig field datamodel this verb model :
  new generatorConfig field datamodel = JS.Ok this →
  ExtendedDMMFSchemaField.prismaAction this = Some verb →
  JS.includes model "OrThrow" = false →
  DMMF.SchemaField_name field = verb +:+ model
  ∨ DMMF.SchemaField_name field = verb +:+ model +:+ "OrThrow" →
  ExtendedDMMFSchemaField.modelType this = model.
Proof.
  intros (_ & Hp & Hm & _)%new_action_Ok Hverb Hmodel Hname.
  rewrite Hm, <- Hp, Hverb. unfold ExtendedDMMFSchemaField._setModelType. simpl.
  destruct Hname as [-> | ->]; rewrite replace_prefix.
  - by apply replace_absent.
  - by apply replace_OrThrow_suffix.
Qed.

(** X7: the name of the argument type of a constructed action is absent
    exactly when the action name has no [OrThrow] in it and no label is
    registered for the verb that was looked up; when present it is the model
    type followed by a text that ends in [Args]. *)
Theorem argName_absent_iff generatorConfig field datamodel this :
  new generatorConfig field datamodel = JS.Ok this →
  (ExtendedDMMFSchemaField.argName this = None
   ↔ JS.includes (ExtendedDMMFSchemaField.name this) "OrThrow" = false
     ∧ PRISMA_ACTION_ARG_MAP !! JS.show (ExtendedDMMFSchemaField.prismaAction this) = None)
  ∧ (∀ argName, ExtendedDMMFSchemaField.argName this = Some argName →
       ∃ label, argName = ExtendedDMMFSchemaField.modelType this +:+ label +:+ "Args").
Proof.
  intros (Hn & Hp & Hm & Ha & _)%new_action_Ok.
  rewrite Ha, <- Hm, <- Hp, Hn. unfold ExtendedDMMFSchemaField._setArgName.
  destruct (JS.includes _ "OrThrow"), (PRISMA_ACTION_ARG_MAP !! _) as [label |]; simpl.
  - split; [split; [done | by intros [? _]] |]. intros ? [= <-].
    exists (pascalCase label +:+ "OrThrow"). by rewrite !append_assoc.
  - split; [split; [done | by intros [? _]] |]. intros ? [= <-].
    by exists "undefinedOrThrow".
  - split; [split; [done | by intros [_ ?]] |]. intros ? [= <-]. by exists (pascalCase label).
  - split; [done |]. by intros ? [=].
Qed.

End ActionProperties.

(** ** The custom argument type *)

Lemma join_cons_nonempty sep x (l : list string) :
  l ≠ [] → JS.join sep (x :: l) = x +:+ sep +:+ JS.join sep l.
Proof. by destruct l. Qed.

(** Writing a separator after every element but the last and joining with
    nothing is joining with the separator. *)
Lemma join_separators {A} (X : A → string) (sep : string) (l : list A) (n : nat) :
  n = length l - 1 →
  JS.join "" (imap (λ idx x, X x +:+ (if negb (idx =? n) then sep else "")) l)
  = JS.join sep (map X l).
Proof.
  revert n. induction l as [|x l IH]; intros n Hn; [done |].
  destruct l as [|y l].
  - subst n. simpl. by rewrite append_nil_r.
  - simpl in Hn. subst n.
    rewrite imap_cons.
    rewrite (imap_ext _ (λ idx x, X x +:+ (if negb (idx =? length l) then sep else ""))
               (y :: l)) by done.
    rewrite join_cons_nonempty by done.
    rewrite IH by (simpl; lia).
    change (map X (x :: y :: l)) with (X x :: map X (y :: l)).
    rewrite join_cons_nonempty by done.
    simpl. by rewrite append_assoc.
Qed.

(** The type of one argument, in full. *)
Lemma argTypeOf_eq arg :
  ExtendedDMMFSchemaField.argTypeOf arg
  = if lacksFirstType arg then JS.Throw JS.TypeError else JS.Ok (typeText arg).
Proof.
  unfold ExtendedDMMFSchemaField.argTypeOf, lacksFirstType, typeText.
  destruct (ExtendedDMMFSchemaArg.hasMultipleTypes arg); simpl.
  - f_equal. rewrite <- (join_separators inferType " | " _ _ eq_refl).
    f_equal. apply imap_ext. intros idx t _. unfold inferType.
    by rewrite !append_assoc.
  - destruct (ExtendedDMMFSchemaArg.inputTypes arg) as [|t ts]; simpl; [done |].
    f_equal. by rewrite !append_assoc.
Qed.

Lemma forEach_entries (args : list ExtendedDMMFSchemaArg.t) (acc : list string) :
  JS.forEach (λ args arg,
      if negb (ExtendedDMMFSchemaArg.rewriteArgWithNewType arg) then JS.Ok args
      else
        let argName :=
          ExtendedDMMFSchemaArg.name arg
            +:+ (if ExtendedDMMFSchemaArg.isRequired arg then "" else "?") +:+ ": " in
        argType ← ExtendedDMMFSchemaField.argTypeOf arg;
        JS.Ok (ExtendedDMMFSchemaField.push args (argName +:+ argType))) acc args
  = if existsb (λ arg, ExtendedDMMFSchemaArg.rewriteArgWithNewType arg && lacksFirstType arg)
         args
    then JS.Throw JS.TypeError
    else JS.Ok (acc ++ map (λ arg, entryName arg +:+ typeText arg)
                         (List.filter ExtendedDMMFSchemaArg.rewriteArgWithNewType args)).
Proof.
  revert acc. induction args as [|arg args IH]; intros acc; simpl.
  { by rewrite app_nil_r. }
  destruct (ExtendedDMMFSchemaArg.rewriteArgWithNewType arg); simpl; [| apply IH].
  rewrite argTypeOf_eq. destruct (lacksFirstType arg); simpl; [done |].
  rewrite IH. destruct (existsb _ args); [done |].
  unfold ExtendedDMMFSchemaField.push. by rewrite <- app_assoc.
Qed.

(** X9: the field list of the custom argument type, in full.  It throws a type
    error exactly when an argument that is rewritten is of one type and has
    no input type; an argument that is not rewritten is not read.
    Otherwise it holds, in the order of the arguments and joined by a comma,
    one entry per rewritten argument: the name, a question mark if the
    argument is not required, a colon and the type; the type of an argument
    of several types is its accepted types joined by a bar, with no bar
    after the last one. *)
Theorem custom_args_type_content (this : ExtendedDMMFSchemaField.t) :
  ExtendedDMMFSchemaField.getTypeForCustomArgsType this
  = if existsb (λ arg, ExtendedDMMFSchemaArg.rewriteArgWithNewType arg && lacksFirstType arg)
         (ExtendedDMMFSchemaField.args this)
    then JS.Throw JS.TypeError
    else JS.Ok (JS.join ", "
                  (map (λ arg, entryName arg +:+ typeText arg)
                     (List.filter ExtendedDMMFSchemaArg.rewriteArgWithNewType
                        (ExtendedDMMFSchemaField.args this)))).
Proof.
  unfold ExtendedDMMFSchemaField.getTypeForCustomArgsType.
  rewrite forEach_entries. by destruct (existsb _ _).
Qed.

(** ** Further properties of the model *)

Lemma greedy_chars cls s w :
  w ∈ RegExp.greedy cls s →
  allChars cls (RegExp.consumed w) = true ∧ RegExp.consumed w ≠ "" ∧ RegExp.groups w = [].
Proof.
  revert w. induction s as [|c s IH]; intros w; simpl; [by intros ?%elem_of_nil |].
  destruct (cls c) eqn:E; [| by intros ?%elem_of_nil].
  rewrite elem_of_app, list_elem_of_fmap, list_elem_of_singleton.
  intros [(w' & -> & Hw') | ->]; simpl; rewrite E; [| done].
  by destruct (IH _ Hw') as (-> & _ & _).
Qed.

Lemma exec_from_way r s i m :
  RegExp.exec_from r i s = Some m →
  ∃ s' w, w ∈ RegExp.run r s' ∧ RegExp.matched m = RegExp.consumed w
          ∧ RegExp.named m = RegExp.groups w.
Proof.
  revert i. induction s as [|c s IH]; intros i; simpl.
  - destruct (RegExp.run r "") as [|w ws] eqn:E; [done |].
    intros [= <-]. exists "", w. rewrite E. split; [by left | done].
  - destruct (RegExp.run r (String c s)) as [|w ws] eqn:E; [by apply IH |].
    intros [= <-]. exists (String c s), w. rewrite E. split; [by left | done].
Qed.

(** Normalising the quotes of a text of statement characters leaves no
    double quote in it. *)
Lemma replaceAllIn_quotes s :
  allChars ExtendedDMMFModel.statementChar s = true →
  allChars normalisedChar (JS.replaceAllIn ExtendedDMMFModel.quoteChar "'" s) = true.
Proof.
  induction s as [|c s IH]; simpl; [done |].
  intros [Hc Hs]%andb_true_iff.
  destruct (ExtendedDMMFModel.quoteChar c) eqn:Hq; simpl; rewrite IH by done.
  - done.
  - rewrite andb_true_r. unfold normalisedChar. rewrite Hc. simpl.
    apply negb_true_iff, bool_decide_eq_false. intros ->.
    vm_compute in Hq. done.
Qed.

Lemma replaceAllIn_nonempty cls c s : JS.replaceAllIn cls (String c "") s = "" → s = "".
Proof. destruct s as [|c' s]; [done |]. simpl. by destruct (cls c'). Qed.

(** What the statement pattern extracts from a piece of the payload. *)
Lemma extractStatement_Some piece statement :
  ExtendedDMMFModel.extractStatement piece = Some statement →
  statement ≠ "" ∧ allChars normalisedChar statement = true.
Proof.
  unfold ExtendedDMMFModel.extractStatement.
  destruct (RegExp.match_ piece _) as [m |] eqn:Hm; simpl; [| done].
  apply exec_from_way in Hm as (s' & w & Hw & _ & Hg).
  unfold RegExp.group. rewrite Hg. clear Hg.
  unfold ExtendedDMMFModel.STATEMENT_REGEX in Hw. cbn [RegExp.run] in Hw.
  apply list_elem_of_bind in Hw as (w1 & Hw & Hw1).
  apply list_elem_of_bind in Hw as (w2 & Hw & Hw2).
  apply list_elem_of_singleton in Hw as ->.
  apply list_elem_of_bind in Hw2 as (w3 & Hw2 & Hw3).
  apply list_elem_of_bind in Hw2 as (w4 & Hw2 & Hw4).
  apply list_elem_of_singleton in Hw2 as ->.
  apply list_elem_of_fmap in Hw3 as (g & -> & Hg).
  destruct (JS.startsWith s' JS.dq); [| by apply elem_of_nil in Hw1].
  apply list_elem_of_singleton in Hw1 as ->.
  destruct (JS.startsWith _ JS.dq); [| by apply elem_of_nil in Hw4].
  apply list_elem_of_singleton in Hw4 as ->.
  apply greedy_chars in Hg as (Hchars & Hne & ->). simpl.
  intros [= <-]. split.
  - intros H%replaceAllIn_nonempty. done.
  - by apply replaceAllIn_quotes.
Qed.

Section ModelProperties.

Variable IMPORT_STATEMENT_REGEX : RegExp.regex.
Variable newExtendedDMMFField : GeneratorConfig → DMMF.Field → string → ExtendedDMMFField.t.

#[local] Abbreviation new := (ExtendedDMMFModel.new IMPORT_STATEMENT_REGEX newExtendedDMMFField).
#[local] Abbreviation _extractZodDirectives :=
  (ExtendedDMMFModel._extractZodDirectives IMPORT_STATEMENT_REGEX).

(** X11: every statement extracted from a directive is a text that is not
    empty, of characters of the statement pattern, with no double quote
    left in it: the quotes are single quotes. *)
Theorem statements_normalised documentation errorLocation z :
  _extractZodDirectives documentation errorLocation = JS.Ok (Some z) →
  Forall (λ statement, statement ≠ "" ∧ allChars normalisedChar statement = true)
    (ExtendedDMMFModel.statements z).
Proof.
  unfold ExtendedDMMFModel._extractZodDirectives.
  destruct documentation as [[|c doc] |]; [done | | done].
  destruct (RegExp.match_ _ _) as [importStatements |]; [| done].
  case_bool_decide; [done |].
  destruct (RegExp.group importStatements "imports"); simpl; [| done].
  intros [= <-]. simpl. apply Forall_forall. intros statement.
  rewrite list_elem_of_omap. intros (piece & _ & Hp).
  destruct (ExtendedDMMFModel.extractStatement piece) as [st |] eqn:E; simpl in Hp; [| done].
  destruct st; simpl in Hp; [done |]. injection Hp as <-.
  by apply extractStatement_Some in E.
Qed.

(** X12: a model whose documentation is absent, empty or without a match of
    the directive pattern is constructed: its cleared documentation is
    undefined and its import set holds the automatic statements, each once
    where first seen. *)
Theorem construction_without_directive generatorConfig model :
  (∀ doc, DMMF.documentation model = Some doc → doc ≠ "" →
          RegExp.match_ doc IMPORT_STATEMENT_REGEX = None) →
  ∃ m,
    new generatorConfig model = JS.Ok m
    ∧ ExtendedDMMFModel.clearedDocumentation m = None
    ∧ ExtendedDMMFModel.imports m
      = firstSeen [] (automaticStatements generatorConfig (ExtendedDMMFModel.fields m)).
Proof.
  intros Hdoc.
  assert (_extractZodDirectives (DMMF.documentation model)
            (ExtendedDMMFModel._setErrorLocation (DMMF.name model)) = JS.Ok None) as Hz.
  { unfold ExtendedDMMFModel._extractZodDirectives.
    destruct (DMMF.documentation model) as [[|c doc] |]; [done | | done].
    by rewrite (Hdoc (String c doc)). }
  unfold ExtendedDMMFModel.new, ExtendedDMMFModel._getDocumentationContent.
  rewrite Hz. simpl. eexists. split_and!; [reflexivity | done |]. simpl.
  unfold ExtendedDMMFModel._getExtendedFields.
  by rewrite _getAutomaticImports_automaticStatements, newSet_firstSeen.
Qed.

(** X14: the flags of a constructed model: it has relation fields exactly when
    one of its fields is of kind [object], that is when the list of
    relation fields is not empty, and it has omit fields exactly when one of
    its fields is an omit field. *)
Theorem model_flags generatorConfig model m :
  new generatorConfig model = JS.Ok m →
  (ExtendedDMMFModel.hasRelationFields m = true
   ↔ ∃ f, f ∈ ExtendedDMMFModel.fields m ∧ ExtendedDMMFField.kind f = "object")
  ∧ (ExtendedDMMFModel.hasRelationFields m = false ↔ ExtendedDMMFModel.relationFields m = [])
  ∧ (ExtendedDMMFModel.hasOmitFields m = true
     ↔ ∃ f, f ∈ ExtendedDMMFModel.fields m ∧ ExtendedDMMFField.isOmitField f = true).
Proof.
  unfold ExtendedDMMFModel.new.
  destruct (ExtendedDMMFModel._getDocumentationContent _ _ _ _ _ _); simpl; [| done].
  intros [= <-]. simpl.
  unfold ExtendedDMMFModel._setHasRelationFields, ExtendedDMMFModel._setRelationFields,
    ExtendedDMMFModel._setHasOmitFields.
  set (fields := ExtendedDMMFModel._getExtendedFields _ _ _ _).
  split_and!.
  - rewrite Nat.ltb_lt. split.
    + intros Hlen. destruct (filter _ fields) as [|f fs] eqn:E; [simpl in Hlen; lia |].
      assert (f ∈ filter (λ field, ExtendedDMMFField.kind field = "object") fields) as Hf
        by (rewrite E; left).
      apply list_elem_of_filter in Hf as [Hk Hf]. by exists f.
    + intros (f & Hf & Hk).
      assert (f ∈ filter (λ field, ExtendedDMMFField.kind field = "object") fields) as Hin
        by (by apply list_elem_of_filter).
      destruct (filter _ fields); [by apply elem_of_nil in Hin | simpl; lia].
  - rewrite Nat.ltb_ge. destruct (filter _ fields); simpl; split; (done || lia).
  - apply existsb_elem_of.
Qed.

End ModelProperties.

(** ** The further properties on the samples *)

Lemma argTypeImports_content_witness :
  ∃ this,
    Sample.newAction (Sample.action "findManyUser" Sample.findManyRawArgs) Sample.userFirst
    = JS.Ok this
    ∧ ExtendedDMMFSchemaField.argTypeImports this
      = firstSeen []
          (List.filter keptImport
             (when (forallb (λ many, negb (JS.includes (ExtendedDMMFSchemaField.name this) many))
                      ["createMany"; "updateMany"; "deleteMany"]
                    && default false (ExtendedDMMFModel.hasRelationFields
                                        <$> ExtendedDMMFSchemaField.linkedModel this))
                (includeImport Sample.config (ExtendedDMMFSchemaField.modelType this))
              ++ argImports Sample.config (ExtendedDMMFSchemaField.args this))).
Proof.
  eexists. split; [vm_compute; reflexivity |].
  eapply (argTypeImports_content Sample.PRISMA_ACTION_ARRAY Sample.PRISMA_ACTION_ARG_MAP
            Sample.newExtendedDMMFSchemaArg Sample.config
            (Sample.action "findManyUser" Sample.findManyRawArgs) Sample.userFirst).
  vm_compute. reflexivity.
Defined.

(** Of the three arguments of the sample, the filter alone is imported:
    the schemas of [Int] and [BigInt] are dropped. *)
Example findManyUser_imports :
  ∃ this,
    Sample.newAction (Sample.action "findManyUser" Sample.findManyRawArgs) Sample.userFirst
    = JS.Ok this
    ∧ ExtendedDMMFSchemaField.argTypeImports this
      = ["import { UserIncludeSchema } from '../inputTypeSchemas/UserIncludeSchema'";
         "import { UserWhereInputSchema } from '../inputTypeSchemas/UserWhereInputSchema'"].
Proof. eexists. split; vm_compute; reflexivity. Qed.

Lemma argTypeImports_never_Int_Boolean_witness :
  ∃ this,
    Sample.newAction (Sample.action "findManyUser" Sample.findManyRawArgs) Sample.userFirst
    = JS.Ok this
    ∧ NoDup (ExtendedDMMFSchemaField.argTypeImports this).
Proof.
  eexists. split; [vm_compute; reflexivity |].
  eapply (argTypeImports_never_Int_Boolean Sample.PRISMA_ACTION_ARRAY
            Sample.PRISMA_ACTION_ARG_MAP Sample.newExtendedDMMFSchemaArg Sample.config
            (Sample.action "findManyUser" Sample.findManyRawArgs) Sample.userFirst).
  vm_compute. reflexivity.
Defined.

Lemma action_hasOmitFields_iff_witness :
  ∃ this,
    Sample.newAction (Sample.action "createManyUser" Sample.createManyRawArgs)
      Sample.userFirst = JS.Ok this
    ∧ (ExtendedDMMFSchemaField.linkedModel this = None →
       ExtendedDMMFSchemaField.hasOmitFields this = false).
Proof.
  eexists. split; [vm_compute; reflexivity |].
  eapply (action_hasOmitFields_iff Sample.PRISMA_ACTION_ARRAY Sample.PRISMA_ACTION_ARG_MAP
            Sample.newExtendedDMMFSchemaArg Sample.config
            (Sample.action "createManyUser" Sample.createManyRawArgs) Sample.userFirst).
  vm_compute. reflexivity.
Defined.

Lemma first_match_wins_witness :
  ∃ this,
    Sample.newAction (Sample.action "findManyUser" Sample.findManyRawArgs) Sample.userFirst
    = JS.Ok this
    ∧ (ExtendedDMMFSchemaField.prismaAction this = None
       ↔ Forall (λ v, JS.includes (ExtendedDMMFSchemaField.name this) v = false)
           Sample.PRISMA_ACTION_ARRAY).
Proof.
  eexists. split; [vm_compute; reflexivity |].
  eapply (first_match_wins Sample.PRISMA_ACTION_ARRAY Sample.PRISMA_ACTION_ARG_MAP
            Sample.newExtendedDMMFSchemaArg Sample.config
            (Sample.action "findManyUser" Sample.findManyRawArgs) Sample.userFirst).
  vm_compute. reflexivity.
Defined.

Lemma modelType_of_verb_and_model_witness :
  ∃ this,
    Sample.newAction (Sample.action "findFirstUserOrThrow" []) Sample.userFirst = JS.Ok this
    ∧ ExtendedDMMFSchemaField.modelType this = "User".
Proof.
  eexists. split; [vm_compute; reflexivity |].
  eapply (modelType_of_verb_and_model Sample.PRISMA_ACTION_ARRAY Sample.PRISMA_ACTION_ARG_MAP
            Sample.newExtendedDMMFSchemaArg Sample.config
            (Sample.action "findFirstUserOrThrow" []) Sample.userFirst _ "findFirst" "User").
  - vm_compute. reflexivity.
  - vm_compute. reflexivity.
  - vm_compute. reflexivity.
  - right. reflexivity.
Defined.

Lemma argName_absent_iff_witness :
  ∃ this,
    Sample.newAction (Sample.action "findFirstUserOrThrow" []) Sample.userFirst = JS.Ok this
    ∧ ∀ argName, ExtendedDMMFSchemaField.argName this = Some argName →
        ∃ label, argName = ExtendedDMMFSchemaField.modelType this +:+ label +:+ "Args".
Proof.
  eexists. split; [vm_compute; reflexivity |].
  eapply (argName_absent_iff Sample.PRISMA_ACTION_ARRAY Sample.PRISMA_ACTION_ARG_MAP
            Sample.newExtendedDMMFSchemaArg Sample.config
            (Sample.action "findFirstUserOrThrow" []) Sample.userFirst).
  vm_compute. reflexivity.
Defined.

Lemma statements_normalised_witness :
  Forall (λ statement, statement ≠ "" ∧ allChars normalisedChar statement = true)
    ["import { x } from 'y'"].
Proof.
  apply (statements_normalised Sample.IMPORT_STATEMENT_REGEX
           (Some ("some text " +:+ Sample.directive "import { x } from 'y'")) ""
           {| ExtendedDMMFModel.statements := ["import { x } from 'y'"];
              ExtendedDMMFModel.directives_clearedDocumentation := "some text " |}).
  vm_compute. reflexivity.
Defined.

Lemma construction_without_directive_witness :
  ∃ m,
    Sample.newModel Sample.userProfileModel = JS.Ok m
    ∧ ExtendedDMMFModel.clearedDocumentation m = None
    ∧ ExtendedDMMFModel.imports m
      = firstSeen [] (automaticStatements Sample.config (ExtendedDMMFModel.fields m)).
Proof.
  apply (construction_without_directive Sample.IMPORT_STATEMENT_REGEX
           Sample.newExtendedDMMFField Sample.config Sample.userProfileModel).
  intros doc Hdoc. vm_compute in Hdoc. discriminate.
Defined.

Lemma model_flags_witness :
  ExtendedDMMFModel.hasRelationFields Sample.sampleUser = false
  ↔ ExtendedDMMFModel.relationFields Sample.sampleUser = [].
Proof.
  apply (model_flags Sample.IMPORT_STATEMENT_REGEX Sample.newExtendedDMMFField
           Sample.config Sample.userModel Sample.sampleUser).
  vm_compute. reflexivity.
Defined.
